(** * button_lib: debounce filter and press classifier of [button.c]

    A shallow embedding of [Core/Src/button.c] and [button.h].  The C code
    mutates one [Button] structure through a pointer, three function-scoped
    [static] timestamps and a few file-scope debug variables.  Here the
    structure and the variables are records that every function receives and
    returns; the two HAL services the code consumes (the millisecond tick and
    the pin read) are a third record the functions only read. *)

From Stdlib Require Import ZArith Bool List Lia.
Import ListNotations.
Local Open Scope Z_scope.

(** ** Machine integers

    [uint8_t], [uint16_t] and [uint32_t] values are integers of [Z]; the
    places where the C arithmetic can leave the range are reduced explicitly. *)

Definition wrap16 (x : Z) : Z := x mod 2 ^ 16.
Definition wrap32 (x : Z) : Z := x mod 2 ^ 32.

(** ** button.h *)

Definition DEBOUNCE_DURATION : Z := 200.
Definition LONG_PRESS_DURATION : Z := 1000.
Definition DOUBLE_PRESS_WINDOW : Z := 500.

(** [GPIO_PinState] of the HAL: [GPIO_PIN_RESET = 0], [GPIO_PIN_SET]. The
    button is wired active-low: RESET is pressed, SET is released. *)
Inductive GPIO_PinState : Set :=
| GPIO_PIN_RESET
| GPIO_PIN_SET.

Definition PinState_eqb (x y : GPIO_PinState) : bool :=
  match x, y with
  | GPIO_PIN_RESET, GPIO_PIN_RESET => true
  | GPIO_PIN_SET, GPIO_PIN_SET => true
  | _, _ => false
  end.

(** [typedef struct { ... } Button;]  The port pointer is its address. *)
Record Button : Set := mkButton {
  GPIO_Port : Z;
  _pin : Z;
  _delay : Z;
  _state : GPIO_PinState;
  _has_changed : Z;
  _press_start_time : Z;
  _long_press_event : Z;
  _double_press_event : Z
}.

(** ** Variables that outlive a call

    The file-scope variables written by the code ([debounce_counter] and
    [double_window_counter] are declared but never touched) followed by the
    three [static] locals of [Button_IRQ_Handler]. *)
Record Globals : Set := mkGlobals {
  is_button_pressed : Z;
  debug_count : Z;
  is_state_changed : Z;
  button_has_changed : Z;
  ignore_until : Z;
  press_start_time : Z;
  last_press_time : Z
}.

(** ** The HAL as seen by one call

    [uwTick] is the millisecond counter behind [HAL_GetTick]; [IDR] gives the
    level of a pin of a port.  A call reads one snapshot: the tick and the
    pins do not move while a handler or an accessor runs. *)
Record HAL : Type := mkHAL {
  uwTick : Z;
  IDR : Z -> Z -> GPIO_PinState
}.

Definition HAL_GetTick (h : HAL) : Z := uwTick h.
Definition HAL_GPIO_ReadPin (h : HAL) (port pin : Z) : GPIO_PinState :=
  IDR h port pin.

(** ** Field assignments *)

Definition set_state (b : Button) (v : GPIO_PinState) : Button :=
  mkButton (GPIO_Port b) (_pin b) (_delay b) v (_has_changed b)
           (_press_start_time b) (_long_press_event b) (_double_press_event b).
Definition set_has_changed (b : Button) (v : Z) : Button :=
  mkButton (GPIO_Port b) (_pin b) (_delay b) (_state b) v
           (_press_start_time b) (_long_press_event b) (_double_press_event b).
Definition set_long_press_event (b : Button) (v : Z) : Button :=
  mkButton (GPIO_Port b) (_pin b) (_delay b) (_state b) (_has_changed b)
           (_press_start_time b) v (_double_press_event b).
Definition set_double_press_event (b : Button) (v : Z) : Button :=
  mkButton (GPIO_Port b) (_pin b) (_delay b) (_state b) (_has_changed b)
           (_press_start_time b) (_long_press_event b) v.

Definition set_is_button_pressed (g : Globals) (v : Z) : Globals :=
  mkGlobals v (debug_count g) (is_state_changed g) (button_has_changed g)
            (ignore_until g) (press_start_time g) (last_press_time g).
Definition set_debug_count (g : Globals) (v : Z) : Globals :=
  mkGlobals (is_button_pressed g) v (is_state_changed g) (button_has_changed g)
            (ignore_until g) (press_start_time g) (last_press_time g).
Definition set_is_state_changed (g : Globals) (v : Z) : Globals :=
  mkGlobals (is_button_pressed g) (debug_count g) v (button_has_changed g)
            (ignore_until g) (press_start_time g) (last_press_time g).
Definition set_button_has_changed (g : Globals) (v : Z) : Globals :=
  mkGlobals (is_button_pressed g) (debug_count g) (is_state_changed g) v
            (ignore_until g) (press_start_time g) (last_press_time g).
Definition set_ignore_until (g : Globals) (v : Z) : Globals :=
  mkGlobals (is_button_pressed g) (debug_count g) (is_state_changed g)
            (button_has_changed g) v (press_start_time g) (last_press_time g).
Definition set_press_start_time (g : Globals) (v : Z) : Globals :=
  mkGlobals (is_button_pressed g) (debug_count g) (is_state_changed g)
            (button_has_changed g) (ignore_until g) v (last_press_time g).
Definition set_last_press_time (g : Globals) (v : Z) : Globals :=
  mkGlobals (is_button_pressed g) (debug_count g) (is_state_changed g)
            (button_has_changed g) (ignore_until g) (press_start_time g) v.

(** ** button.c *)

(** [void Button_Init(Button *button, GPIO_TypeDef *GPIO_Port, uint16_t pin)]: every field but
    [_delay] is assigned. *)
Definition Button_Init (b : Button) (port pin : Z) : Button :=
  mkButton port pin (_delay b) GPIO_PIN_SET 0 0 0 0.

(** The release branch of the handler (lines 71-87), entered with the
    variables as they are after the debounce deadline has been moved. *)
Definition on_release (h : HAL) (g : Globals) (b : Button) : Globals * Button :=
  let press_duration := wrap32 (HAL_GetTick h - press_start_time g) in
  let '(g, b) :=
    if press_duration >=? LONG_PRESS_DURATION
    then (set_press_start_time g 0, set_long_press_event b 1)
    else (g, b) in
  if press_duration <? DOUBLE_PRESS_WINDOW then
    let time_since_last_press :=
      wrap32 (press_start_time g - last_press_time g) in
    let b :=
      if time_since_last_press <? DOUBLE_PRESS_WINDOW
      then set_double_press_event b 1
      else b in
    (set_last_press_time g (press_start_time g), b)
  else (g, b).

(** [void Button_IRQ_Handler(Button *button)]. *)
Definition Button_IRQ_Handler (h : HAL) (g : Globals) (b : Button)
  : Globals * Button :=
  if ignore_until g >? HAL_GetTick h then (g, b)
  else
    let current_state := HAL_GPIO_ReadPin h (GPIO_Port b) (_pin b) in
    if negb (PinState_eqb current_state (_state b)) then
      let b := set_state b current_state in
      let b := set_has_changed b 1 in
      let g := set_button_has_changed g (_has_changed b) in
      let g := set_debug_count g (wrap16 (debug_count g + 1)) in
      let g := set_ignore_until g (wrap32 (HAL_GetTick h + DEBOUNCE_DURATION)) in
      match current_state with
      | GPIO_PIN_SET => on_release h g b
      | GPIO_PIN_RESET => (set_press_start_time g (HAL_GetTick h), b)
      end
    else (g, b).

(** [static uint8_t Button_Read(Button *button)]. *)
Definition Button_Read (h : HAL) (b : Button) : GPIO_PinState :=
  HAL_GPIO_ReadPin h (GPIO_Port b) (_pin b).

(** [static uint8_t Button_Has_Changed(Button *button)]. *)
Definition Button_Has_Changed (b : Button) : Button * Z :=
  if _has_changed b =? 0 then (b, 0) else (set_has_changed b 0, 1).

(** [uint8_t Button_Pressed(Button *button)]. *)
Definition Button_Pressed (h : HAL) (g : Globals) (b : Button)
  : Globals * Button * Z :=
  let '(g, b) := Button_IRQ_Handler h g b in
  let '(b, r) := Button_Has_Changed b in
  let g := set_is_state_changed g r in
  let g := set_is_button_pressed g
             (if PinState_eqb (Button_Read h b) GPIO_PIN_RESET then 1 else 0) in
  (g, b,
   if is_state_changed g =? 0 then 0
   else if is_button_pressed g =? 0 then 0 else 1).

(** [uint8_t Button_Long_Pressed(Button *button)]. *)
Definition Button_Long_Pressed (h : HAL) (g : Globals) (b : Button)
  : Globals * Button * Z :=
  let '(g, b) := Button_IRQ_Handler h g b in
  if _long_press_event b =? 0 then (g, b, 0)
  else (g, set_long_press_event b 0, 1).

(** [uint8_t Button_Double_Pressed(Button *button)]. *)
Definition Button_Double_Pressed (h : HAL) (g : Globals) (b : Button)
  : Globals * Button * Z :=
  let '(g, b) := Button_IRQ_Handler h g b in
  if _double_press_event b =? 0 then (g, b, 0)
  else (g, set_double_press_event b 0, 1).

(** ** Ranges of the C types *)

Definition is_uint (w x : Z) : Prop := 0 <= x < 2 ^ w.

Definition Button_in_range (b : Button) : Prop :=
  is_uint 16 (_pin b) /\ is_uint 16 (_delay b) /\
  is_uint 8 (_has_changed b) /\ is_uint 32 (_press_start_time b) /\
  is_uint 8 (_long_press_event b) /\ is_uint 8 (_double_press_event b).

Definition Globals_in_range (g : Globals) : Prop :=
  is_uint 8 (is_button_pressed g) /\ is_uint 16 (debug_count g) /\
  is_uint 8 (is_state_changed g) /\ is_uint 8 (button_has_changed g) /\
  is_uint 32 (ignore_until g) /\ is_uint 32 (press_start_time g) /\
  is_uint 32 (last_press_time g).

Definition HAL_in_range (h : HAL) : Prop := is_uint 32 (uwTick h).

(** ** Vocabulary of the specification *)

(** The level the handler would read for this button. *)
Definition raw_level (h : HAL) (b : Button) : GPIO_PinState :=
  HAL_GPIO_ReadPin h (GPIO_Port b) (_pin b).

(** The call falls inside the suppression window: the guard of line 56. *)
Definition suppressed (h : HAL) (g : Globals) : bool :=
  ignore_until g >? HAL_GetTick h.

(** The call accepts a settled transition: lines 56 and 61 both let it in. *)
Definition accepts (h : HAL) (g : Globals) (b : Button) : bool :=
  negb (suppressed h g) && negb (PinState_eqb (raw_level h b) (_state b)).

(** The accepted transition is pressed-to-released. *)
Definition accepts_release (h : HAL) (g : Globals) (b : Button) : bool :=
  accepts h g b && PinState_eqb (raw_level h b) GPIO_PIN_SET.

(** The accepted transition is released-to-pressed. *)
Definition accepts_press (h : HAL) (g : Globals) (b : Button) : bool :=
  accepts h g b && PinState_eqb (raw_level h b) GPIO_PIN_RESET.

(** [press_duration] as line 71 computes it. *)
Definition press_duration (h : HAL) (g : Globals) : Z :=
  wrap32 (HAL_GetTick h - press_start_time g).

(** [time_since_last_press] as line 80 computes it. *)
Definition time_since_last_press (g : Globals) : Z :=
  wrap32 (press_start_time g - last_press_time g).

(** A snapshot with one tick and the same level on every pin. *)
Definition hal_at (t : Z) (lvl : GPIO_PinState) : HAL :=
  mkHAL t (fun _ _ => lvl).

(** The variables at reset: C zero-initialises statics and globals. *)
Definition globals0 : Globals := mkGlobals 0 0 0 0 0 0 0.

(** A button on [GPIO_PIN_0] of the port at address [0x48000000], as
    [Button_Init] leaves it. *)
Definition swa : Button :=
  Button_Init (mkButton 0 0 0 GPIO_PIN_RESET 0 0 0 0) 0x48000000 1.

(** The variables as lines 63-67 leave them, before the edge is classified. *)
Definition after_debounce (h : HAL) (g : Globals) : Globals :=
  set_ignore_until
    (set_debug_count (set_button_has_changed g 1) (wrap16 (debug_count g + 1)))
    (wrap32 (HAL_GetTick h + DEBOUNCE_DURATION)).

(** ** Sequences of calls *)

(** The handler invoked once per snapshot, in order. *)
Fixpoint irq_trace (hs : list HAL) (g : Globals) (b : Button)
  : Globals * Button :=
  match hs with
  | [] => (g, b)
  | h :: hs => let '(g, b) := Button_IRQ_Handler h g b in irq_trace hs g b
  end.

(** The second press of a pair, started at the tick of [h3] after a first
    press started at the tick of [h1], released at [h2] and [h4]. *)
Definition two_short_presses (g : Globals) (b : Button) (h1 h2 h3 h4 : HAL)
  : Prop :=
  _state b = GPIO_PIN_SET /\
  raw_level h1 b = GPIO_PIN_RESET /\ raw_level h2 b = GPIO_PIN_SET /\
  raw_level h3 b = GPIO_PIN_RESET /\ raw_level h4 b = GPIO_PIN_SET /\
  0 <= HAL_GetTick h1 /\ ignore_until g <= HAL_GetTick h1 /\
  HAL_GetTick h1 + DEBOUNCE_DURATION <= HAL_GetTick h2 /\
  HAL_GetTick h2 + DEBOUNCE_DURATION <= HAL_GetTick h3 /\
  HAL_GetTick h3 + DEBOUNCE_DURATION <= HAL_GetTick h4 /\
  HAL_GetTick h4 < 2 ^ 32 /\
  HAL_GetTick h2 - HAL_GetTick h1 < DOUBLE_PRESS_WINDOW /\
  HAL_GetTick h4 - HAL_GetTick h3 < DOUBLE_PRESS_WINDOW.

(** The pairing rule with the gap measured from the first release. *)
Definition pairing_by_release_gap : Prop :=
  forall g b h1 h2 h3 h4,
    two_short_presses g b h1 h2 h3 h4 ->
    let '(g3, b3) := irq_trace [h1; h2; h3] g b in
    let '(g4, b4) := Button_IRQ_Handler h4 g3 b3 in
    (HAL_GetTick h3 - HAL_GetTick h2 < DOUBLE_PRESS_WINDOW ->
       _double_press_event b4 = 1) /\
    (DOUBLE_PRESS_WINDOW <= HAL_GetTick h3 - HAL_GetTick h2 ->
       _double_press_event b4 = _double_press_event b3).

(** Two presses of 300 ms, 300 ms apart, on a freshly initialised button:
    press at 1000, release at 1300, press at 1600, release at 1900. *)
Definition presses_300_apart : list HAL :=
  [hal_at 1000 GPIO_PIN_RESET; hal_at 1300 GPIO_PIN_SET;
   hal_at 1600 GPIO_PIN_RESET; hal_at 1900 GPIO_PIN_SET].

(** ** Flags and entry points *)

(** The three one-shot flags of a button. *)
Inductive flag : Set :=
| Changed
| LongPress
| DoublePress.

(** The member that holds a flag. *)
Definition flag_of (f : flag) (b : Button) : Z :=
  match f with
  | Changed => _has_changed b
  | LongPress => _long_press_event b
  | DoublePress => _double_press_event b
  end.

(** The public accessor that consumes each flag. *)
Definition accessor (f : flag)
  : HAL -> Globals -> Button -> Globals * Button * Z :=
  match f with
  | Changed => Button_Pressed
  | LongPress => Button_Long_Pressed
  | DoublePress => Button_Double_Pressed
  end.

(** The event that makes the handler assign the flag during this call. *)
Definition raises (f : flag) (h : HAL) (g : Globals) (b : Button) : bool :=
  match f with
  | Changed => accepts h g b
  | LongPress =>
      accepts_release h g b && (press_duration h g >=? LONG_PRESS_DURATION)
  | DoublePress =>
      accepts_release h g b && (press_duration h g <? DOUBLE_PRESS_WINDOW)
      && (time_since_last_press g <? DOUBLE_PRESS_WINDOW)
  end.

(** Some invocation of the handler along the snapshots raises the flag. *)
Fixpoint raised_by (f : flag) (hs : list HAL) (g : Globals) (b : Button)
  : bool :=
  match hs with
  | [] => false
  | h :: hs =>
      raises f h g b ||
      (let '(g, b) := Button_IRQ_Handler h g b in raised_by f hs g b)
  end.

(** The one-shot law read as the promise that a flagged event is reported
    to exactly one of the calls that consume it: whenever the flag is set
    when the first of two consecutive accessor calls reads it, and no new
    event comes after, the calls return (1, 0). *)
Definition reported_exactly_once : Prop :=
  forall (f : flag) (h1 h2 : HAL) (hs : list HAL)
         (g g1 g1' g2 : Globals) (b b1 b1' b2 : Button) (r1 r2 : Z),
    accessor f h1 g b = (g1, b1, r1) ->
    irq_trace hs g1 b1 = (g1', b1') ->
    accessor f h2 g1' b1' = (g2, b2, r2) ->
    raised_by f hs g1 b1 = false ->
    raises f h2 g1' b1' = false ->
    flag_of f (snd (Button_IRQ_Handler h1 g b)) <> 0 ->
    (r1, r2) = (1, 0).

(** The five entry points of [button.h]. *)
Inductive api : Set :=
| API_Init (port pin : Z)
| API_IRQ_Handler
| API_Pressed
| API_Long_Pressed
| API_Double_Pressed.

(** One call of an entry point; the [void] ones return 0 here. *)
Definition call (op : api) (h : HAL) (g : Globals) (b : Button)
  : Globals * Button * Z :=
  match op with
  | API_Init port pin => (g, Button_Init b port pin, 0)
  | API_IRQ_Handler => (Button_IRQ_Handler h g b, 0)
  | API_Pressed => Button_Pressed h g b
  | API_Long_Pressed => Button_Long_Pressed h g b
  | API_Double_Pressed => Button_Double_Pressed h g b
  end.

(** The entry points that run the handler. *)
Definition updates (op : api) : bool :=
  match op with
  | API_Init _ _ => false
  | _ => true
  end.

(** A sequence of calls on one button, with the value each one returned. *)
Fixpoint run (cs : list (api * HAL)) (g : Globals) (b : Button)
  : Globals * Button * list (api * Z) :=
  match cs with
  | [] => (g, b, [])
  | (op, h) :: cs =>
      let '(g, b, r) := call op h g b in
      let '(g, b, log) := run cs g b in
      (g, b, (op, r) :: log)
  end.

(** No call of the sequence accepts a settled transition. *)
Fixpoint quiet (cs : list (api * HAL)) (g : Globals) (b : Button) : bool :=
  match cs with
  | [] => true
  | (op, h) :: cs =>
      negb (updates op && accepts h g b) &&
      let '(g, b, _) := call op h g b in quiet cs g b
  end.

(** The entry points that leave the changed flag to [Button_Pressed]. *)
Definition leaves_changed (op : api) : bool :=
  match op with
  | API_IRQ_Handler | API_Long_Pressed | API_Double_Pressed => true
  | API_Init _ _ | API_Pressed => false
  end.

(** ** Counting and well-formed calls *)

(** The number of handler invocations of a run that accept a transition. *)
Fixpoint accepted_count (hs : list HAL) (g : Globals) (b : Button) : Z :=
  match hs with
  | [] => 0
  | h :: hs =>
      (if accepts h g b then 1 else 0) +
      (let '(g, b) := Button_IRQ_Handler h g b in accepted_count hs g b)
  end.

(** A call as the C types allow it: a 32-bit tick, a 16-bit pin mask. *)
Definition call_ok (e : api * HAL) : Prop :=
  HAL_in_range (snd e) /\
  match fst e with
  | API_Init _ pin => is_uint 16 pin
  | _ => True
  end.

(** The entry points that clear a flag: its accessor, and [Button_Init]. *)
Definition consumes (f : flag) (op : api) : bool :=
  match op, f with
  | API_Init _ _, _ => true
  | API_Pressed, Changed => true
  | API_Long_Pressed, LongPress => true
  | API_Double_Pressed, DoublePress => true
  | _, _ => false
  end.

(** ** Two buttons behind one handler *)

Module TwoButtons.

Inductive who : Set :=
| ButtonA
| ButtonB.

Definition is_B (w : who) : bool :=
  match w with
  | ButtonB => true
  | ButtonA => false
  end.

(** The handler invoked for one button or the other, in the order of the
    list.  The two structures are distinct; the variables are the ones of
    the single [Button_IRQ_Handler]. *)
Fixpoint interleave (evs : list (who * HAL)) (g : Globals) (a b : Button)
  : Globals * Button * Button :=
  match evs with
  | [] => (g, a, b)
  | (ButtonA, h) :: evs =>
      let '(g, a) := Button_IRQ_Handler h g a in interleave evs g a b
  | (ButtonB, h) :: evs =>
      let '(g, b) := Button_IRQ_Handler h g b in interleave evs g a b
  end.

(** The calls made for button B, button A left alone. *)
Definition only_B (evs : list (who * HAL)) : list (who * HAL) :=
  filter (fun e => is_B (fst e)) evs.

(** Button B at the end of a run. *)
Definition final_B (evs : list (who * HAL)) (g : Globals) (a b : Button)
  : Button :=
  snd (interleave evs g a b).

(** Two buttons of port A, on [GPIO_PIN_0] and [GPIO_PIN_1]. *)
Definition btnA : Button :=
  Button_Init (mkButton 0 0 0 GPIO_PIN_RESET 0 0 0 0) 0x48000000 1.
Definition btnB : Button :=
  Button_Init (mkButton 0 0 0 GPIO_PIN_RESET 0 0 0 0) 0x48000000 2.

(** A snapshot giving the level of each of the two pins. *)
Definition pins (t : Z) (la lb : GPIO_PinState) : HAL :=
  mkHAL t (fun _ pin => if pin =? 1 then la else lb).

(** A is pressed at 1000, B at 1100. *)
Definition press_B_after_A : list (who * HAL) :=
  [(ButtonA, pins 1000 GPIO_PIN_RESET GPIO_PIN_SET);
   (ButtonB, pins 1100 GPIO_PIN_RESET GPIO_PIN_RESET)].

(** B is held from 1000 to 2100; A is pressed at 1500. *)
Definition hold_B_press_A : list (who * HAL) :=
  [(ButtonB, pins 1000 GPIO_PIN_SET GPIO_PIN_RESET);
   (ButtonA, pins 1500 GPIO_PIN_RESET GPIO_PIN_RESET);
   (ButtonB, pins 2100 GPIO_PIN_RESET GPIO_PIN_SET)].

(** A is pressed from 1000 to 1200, then B from 1400 to 1600. *)
Definition tap_A_tap_B : list (who * HAL) :=
  [(ButtonA, pins 1000 GPIO_PIN_RESET GPIO_PIN_SET);
   (ButtonA, pins 1200 GPIO_PIN_SET GPIO_PIN_SET);
   (ButtonB, pins 1400 GPIO_PIN_SET GPIO_PIN_RESET);
   (ButtonB, pins 1600 GPIO_PIN_SET GPIO_PIN_SET)].

End TwoButtons.

(** * Properties *)

(** ** Reading the handler case by case *)

Lemma PinState_eqb_eq (x y : GPIO_PinState) :
  PinState_eqb x y = true <-> x = y.
Proof. destruct x, y; simpl; split; congruence. Qed.

Lemma PinState_eqb_refl (x : GPIO_PinState) : PinState_eqb x x = true.
Proof. now destruct x. Qed.

Lemma handler_suppressed (h : HAL) (g : Globals) (b : Button) :
  suppressed h g = true -> Button_IRQ_Handler h g b = (g, b).
Proof.
  unfold suppressed, Button_IRQ_Handler. intros ->. reflexivity.
Qed.

Lemma handler_same_level (h : HAL) (g : Globals) (b : Button) :
  raw_level h b = _state b -> Button_IRQ_Handler h g b = (g, b).
Proof.
  unfold raw_level, Button_IRQ_Handler. intros ->.
  rewrite PinState_eqb_refl. simpl. now destruct (_ >? _).
Qed.

Lemma handler_not_accepted (h : HAL) (g : Globals) (b : Button) :
  accepts h g b = false -> Button_IRQ_Handler h g b = (g, b).
Proof.
  unfold accepts. intros H. apply andb_false_iff in H as [H | H].
  - apply handler_suppressed. now apply negb_false_iff.
  - apply handler_same_level. apply negb_false_iff in H.
    now apply PinState_eqb_eq.
Qed.

Lemma handler_press (h : HAL) (g : Globals) (b : Button) :
  accepts_press h g b = true ->
  Button_IRQ_Handler h g b =
  (set_press_start_time (after_debounce h g) (HAL_GetTick h),
   set_has_changed (set_state b GPIO_PIN_RESET) 1).
Proof.
  unfold accepts_press, accepts, suppressed, raw_level, Button_IRQ_Handler.
  intros H. apply andb_true_iff in H as [H Hl].
  apply andb_true_iff in H as [Hs Hd].
  apply negb_true_iff in Hs. apply PinState_eqb_eq in Hl.
  rewrite Hs, Hd, Hl. reflexivity.
Qed.

Lemma handler_release (h : HAL) (g : Globals) (b : Button) :
  accepts_release h g b = true ->
  Button_IRQ_Handler h g b =
  on_release h (after_debounce h g) (set_has_changed (set_state b GPIO_PIN_SET) 1).
Proof.
  unfold accepts_release, accepts, suppressed, raw_level, Button_IRQ_Handler.
  intros H. apply andb_true_iff in H as [H Hl].
  apply andb_true_iff in H as [Hs Hd].
  apply negb_true_iff in Hs. apply PinState_eqb_eq in Hl.
  rewrite Hs, Hd, Hl. reflexivity.
Qed.

Lemma accepts_cases (h : HAL) (g : Globals) (b : Button) :
  accepts h g b = true ->
  accepts_press h g b = true \/ accepts_release h g b = true.
Proof.
  unfold accepts_press, accepts_release. intros ->. simpl.
  destruct (raw_level h b); simpl; auto.
Qed.

(** The handler never touches the wiring of the button, nor the unused
    [_press_start_time] and [_delay] members. *)
Lemma on_release_wiring (h : HAL) (g : Globals) (b : Button) :
  let b' := snd (on_release h g b) in
  GPIO_Port b' = GPIO_Port b /\ _pin b' = _pin b /\ _delay b' = _delay b /\
  _state b' = _state b /\ _has_changed b' = _has_changed b /\
  _press_start_time b' = _press_start_time b.
Proof.
  unfold on_release.
  destruct (_ >=? _); destruct (_ <? _); simpl;
    try destruct (_ <? _); simpl; repeat split.
Qed.

Lemma handler_wiring (h : HAL) (g : Globals) (b : Button) :
  let b' := snd (Button_IRQ_Handler h g b) in
  GPIO_Port b' = GPIO_Port b /\ _pin b' = _pin b /\ _delay b' = _delay b /\
  _press_start_time b' = _press_start_time b.
Proof.
  destruct (accepts h g b) eqn:Ha.
  - destruct (accepts_cases _ _ _ Ha) as [Hp | Hr].
    + rewrite (handler_press _ _ _ Hp). simpl. repeat split.
    + rewrite (handler_release _ _ _ Hr).
      pose proof (on_release_wiring h (after_debounce h g)
                    (set_has_changed (set_state b GPIO_PIN_SET) 1)) as H.
      simpl in H. simpl. intuition.
  - rewrite (handler_not_accepted _ _ _ Ha). simpl. repeat split.
Qed.

(** ** Every stored value stays in the range of its C type *)

Lemma wrap32_range (x : Z) : is_uint 32 (wrap32 x).
Proof. unfold is_uint, wrap32. apply Z.mod_pos_bound. lia. Qed.

Lemma wrap16_range (x : Z) : is_uint 16 (wrap16 x).
Proof. unfold is_uint, wrap16. apply Z.mod_pos_bound. lia. Qed.

Ltac range_split :=
  unfold Button_in_range, Globals_in_range, HAL_in_range in *; simpl in *;
  repeat match goal with
         | H : _ /\ _ |- _ => destruct H
         | |- _ /\ _ => split
         end;
  try assumption;
  try apply wrap32_range; try apply wrap16_range;
  try (unfold is_uint; lia).

Lemma on_release_in_range (h : HAL) (g : Globals) (b : Button) :
  Globals_in_range g -> Button_in_range b ->
  Globals_in_range (fst (on_release h g b)) /\
  Button_in_range (snd (on_release h g b)).
Proof.
  intros Hg Hb. unfold on_release.
  destruct (_ >=? _); destruct (_ <? _); simpl;
    try destruct (_ <? _); simpl; range_split.
Qed.

Lemma handler_in_range (h : HAL) (g : Globals) (b : Button) :
  HAL_in_range h -> Globals_in_range g -> Button_in_range b ->
  Globals_in_range (fst (Button_IRQ_Handler h g b)) /\
  Button_in_range (snd (Button_IRQ_Handler h g b)).
Proof.
  intros Hh Hg Hb. destruct (accepts h g b) eqn:Ha.
  - destruct (accepts_cases _ _ _ Ha) as [Hp | Hr].
    + rewrite (handler_press _ _ _ Hp). range_split.
    + rewrite (handler_release _ _ _ Hr).
      apply on_release_in_range; range_split.
  - rewrite (handler_not_accepted _ _ _ Ha). now split.
Qed.

(** ** Debounce filter *)

(** The guard of line 56: while the stored deadline [ignore_until] is ahead
    of the tick, the handler returns the button and every variable as they
    were, whatever level the pin shows. *)
Lemma debounce_window_is_noop (h : HAL) (g : Globals) (b : Button) :
  suppressed h g = true ->
  let g' := fst (Button_IRQ_Handler h g b) in
  let b' := snd (Button_IRQ_Handler h g b) in
  Button_IRQ_Handler h g b = (g, b) /\
  _state b' = _state b /\
  _has_changed b' = _has_changed b /\
  _long_press_event b' = _long_press_event b /\
  _double_press_event b' = _double_press_event b /\
  ignore_until g' = ignore_until g.
Proof.
  intros Hs. rewrite (handler_suppressed h g b Hs). simpl. repeat split.
Qed.

(** Past the guard: a raw level that differs from the settled state becomes
    the settled state, sets the changed flag and stores the tick plus
    [DEBOUNCE_DURATION], reduced to 32 bits, as the new deadline; a raw level
    equal to the settled state leaves everything as it was. *)
Lemma update_outside_window (h : HAL) (g : Globals) (b : Button) :
  suppressed h g = false ->
  let g' := fst (Button_IRQ_Handler h g b) in
  let b' := snd (Button_IRQ_Handler h g b) in
  (raw_level h b <> _state b ->
     _state b' = raw_level h b /\
     _has_changed b' = 1 /\
     ignore_until g' = wrap32 (HAL_GetTick h + DEBOUNCE_DURATION)) /\
  (raw_level h b = _state b -> Button_IRQ_Handler h g b = (g, b)).
Proof.
  intros Hs. split.
  - intros Hd.
    assert (Ha : accepts h g b = true).
    { unfold accepts. rewrite Hs. simpl. apply negb_true_iff.
      destruct (PinState_eqb _ _) eqn:E; [| reflexivity].
      apply PinState_eqb_eq in E. contradiction. }
    destruct (accepts_cases _ _ _ Ha) as [Hp | Hr].
    + rewrite (handler_press _ _ _ Hp). simpl.
      unfold accepts_press in Hp. apply andb_true_iff in Hp as [_ Hp].
      apply PinState_eqb_eq in Hp. now rewrite Hp.
    + rewrite (handler_release _ _ _ Hr).
      unfold accepts_release in Hr. apply andb_true_iff in Hr as [_ Hr].
      apply PinState_eqb_eq in Hr. rewrite Hr.
      unfold on_release.
      destruct (_ >=? _); destruct (_ <? _); simpl;
        try destruct (_ <? _); simpl; repeat split.
  - apply handler_same_level.
Qed.

(** The deadline an accepted transition leaves behind. *)
Lemma on_release_deadline (h : HAL) (g : Globals) (b : Button) :
  ignore_until (fst (on_release h g b)) = ignore_until g.
Proof.
  unfold on_release.
  destruct (_ >=? _); destruct (_ <? _); simpl;
    try destruct (_ <? _); reflexivity.
Qed.

Lemma accepted_deadline (h : HAL) (g : Globals) (b : Button) :
  accepts h g b = true ->
  ignore_until (fst (Button_IRQ_Handler h g b)) =
  wrap32 (HAL_GetTick h + DEBOUNCE_DURATION).
Proof.
  intros Ha. destruct (accepts_cases _ _ _ Ha) as [Hp | Hr].
  - now rewrite (handler_press _ _ _ Hp).
  - rewrite (handler_release _ _ _ Hr), on_release_deadline. reflexivity.
Qed.

(** In time units: while the deadline fits in 32 bits, the calls that an
    accepted transition at tick [t] suppresses are those before
    [t + DEBOUNCE_DURATION], whichever button and level they concern. *)
Lemma window_after_accepted (h h' : HAL) (g : Globals) (b : Button) :
  accepts h g b = true ->
  0 <= HAL_GetTick h ->
  HAL_GetTick h + DEBOUNCE_DURATION < 2 ^ 32 ->
  let g' := fst (Button_IRQ_Handler h g b) in
  suppressed h' g' = true <-> HAL_GetTick h' < HAL_GetTick h + DEBOUNCE_DURATION.
Proof.
  intros Ha H0 Hfit g'. unfold suppressed, g'.
  rewrite (accepted_deadline _ _ _ Ha). unfold wrap32.
  rewrite Z.mod_small by (unfold DEBOUNCE_DURATION in *; lia).
  rewrite Z.gtb_ltb. apply Z.ltb_lt.
Qed.

Lemma change_inside_window_ignored (h h' : HAL) (g : Globals) (b : Button) :
  accepts h g b = true ->
  0 <= HAL_GetTick h ->
  HAL_GetTick h + DEBOUNCE_DURATION < 2 ^ 32 ->
  HAL_GetTick h' < HAL_GetTick h + DEBOUNCE_DURATION ->
  let '(g1, b1) := Button_IRQ_Handler h g b in
  Button_IRQ_Handler h' g1 b1 = (g1, b1).
Proof.
  intros Ha H0 Hfit Hin.
  pose proof (proj2 (window_after_accepted h h' g b Ha H0 Hfit) Hin) as Hs.
  destruct (Button_IRQ_Handler h g b) as [g1 b1]. simpl in Hs.
  now apply handler_suppressed.
Qed.

(** The deadline is a 32-bit sum compared with [>]: a transition accepted
    less than [DEBOUNCE_DURATION] before the tick counter overflows leaves a
    deadline that has already wrapped, and the calls up to the overflow are
    not suppressed. *)
Remark deadline_wraps_with_the_tick :
  let '(g1, b1) :=
    Button_IRQ_Handler (hal_at (2 ^ 32 - 100) GPIO_PIN_RESET) globals0 swa in
  ignore_until g1 = 100 /\
  _state (snd (Button_IRQ_Handler (hal_at (2 ^ 32 - 50) GPIO_PIN_SET) g1 b1))
  = GPIO_PIN_SET.
Proof. vm_compute. split; reflexivity. Qed.

(** C1. Within [DEBOUNCE_DURATION] of an accepted transition the handler is
    meant to ignore every change (lines 56-58, 62, 67), and it does so while
    the tick plus [DEBOUNCE_DURATION] fits in 32 bits.  It does not when the
    sum overflows: a press accepted 100 ms before the tick counter wraps
    stores the deadline 100, and the released level read 50 ms later, well
    inside the 200 ms, is not suppressed.  It becomes the settled state, the
    changed flag is written again and the deadline is moved. *)
Theorem debounce_window_lost_before_overflow :
  let press := hal_at (2 ^ 32 - 100) GPIO_PIN_RESET in
  let bounce := hal_at (2 ^ 32 - 50) GPIO_PIN_SET in
  let s1 := Button_IRQ_Handler press globals0 swa in
  let s2 := Button_IRQ_Handler bounce (fst s1) (snd s1) in
  accepts press globals0 swa = true /\
  0 <= HAL_GetTick bounce - HAL_GetTick press < DEBOUNCE_DURATION /\
  ignore_until (fst s1) = 100 /\
  suppressed bounce (fst s1) = false /\
  accepts bounce (fst s1) (snd s1) = true /\
  _state (snd s1) = GPIO_PIN_RESET /\
  _state (snd s2) = GPIO_PIN_SET /\
  ignore_until (fst s2) = 150 /\
  debug_count (fst s2) = 2.
Proof.
  vm_compute. repeat split; try reflexivity; discriminate.
Qed.

(** C2. The window an accepted transition opens is meant to last
    [DEBOUNCE_DURATION] ms from the tick of the transition (line 67), and
    it does while the tick plus [DEBOUNCE_DURATION] fits in 32 bits.  Near
    the overflow of the tick counter it is neither: opened 100 ms before the
    wrap it suppresses no call up to the wrap (too short); opened 300 ms
    before the wrap it still suppresses the release that comes 400 ms later,
    at tick 100 (too long), which leaves the button settled as pressed. *)
Theorem debounce_window_not_200ms_at_overflow :
  (let s := Button_IRQ_Handler (hal_at (2 ^ 32 - 100) GPIO_PIN_RESET)
              globals0 swa in
   accepts (hal_at (2 ^ 32 - 100) GPIO_PIN_RESET) globals0 swa = true /\
   _state (snd s) = GPIO_PIN_RESET /\ _has_changed (snd s) = 1 /\
   ignore_until (fst s) = 100 /\
   suppressed (hal_at (2 ^ 32 - 99) GPIO_PIN_SET) (fst s) = false /\
   suppressed (hal_at (2 ^ 32 - 1) GPIO_PIN_SET) (fst s) = false) /\
  (let s := Button_IRQ_Handler (hal_at (2 ^ 32 - 300) GPIO_PIN_RESET)
              globals0 swa in
   let release := hal_at 100 GPIO_PIN_SET in
   accepts (hal_at (2 ^ 32 - 300) GPIO_PIN_RESET) globals0 swa = true /\
   ignore_until (fst s) = 2 ^ 32 - 100 /\
   wrap32 (HAL_GetTick release - (2 ^ 32 - 300)) = 400 /\
   suppressed release (fst s) = true /\
   Button_IRQ_Handler release (fst s) (snd s) = (fst s, snd s) /\
   _state (snd (Button_IRQ_Handler release (fst s) (snd s))) = GPIO_PIN_RESET).
Proof.
  vm_compute. repeat split; reflexivity.
Qed.

(** ** Press classifier *)

Lemma press_duration_after_debounce (h : HAL) (g : Globals) :
  press_duration h (after_debounce h g) = press_duration h g.
Proof. reflexivity. Qed.

(** What [on_release] does to the classifier variables, by cases on the two
    quantities it compares. *)
Lemma on_release_long (h : HAL) (g : Globals) (b : Button) :
  LONG_PRESS_DURATION <= press_duration h g ->
  on_release h g b = (set_press_start_time g 0, set_long_press_event b 1).
Proof.
  unfold on_release, press_duration. intros H.
  replace (_ >=? _) with true by (symmetry; rewrite Z.geb_leb; now apply Z.leb_le).
  replace (_ <? DOUBLE_PRESS_WINDOW) with false; [reflexivity |].
  symmetry. apply Z.ltb_ge.
  unfold LONG_PRESS_DURATION, DOUBLE_PRESS_WINDOW in *. lia.
Qed.

Lemma on_release_medium (h : HAL) (g : Globals) (b : Button) :
  DOUBLE_PRESS_WINDOW <= press_duration h g < LONG_PRESS_DURATION ->
  on_release h g b = (g, b).
Proof.
  unfold on_release, press_duration. intros [H1 H2].
  replace (_ >=? _) with false
    by (symmetry; rewrite Z.geb_leb; now apply Z.leb_gt).
  replace (_ <? DOUBLE_PRESS_WINDOW) with false; [reflexivity |].
  symmetry. now apply Z.ltb_ge.
Qed.

Lemma on_release_short (h : HAL) (g : Globals) (b : Button) :
  press_duration h g < DOUBLE_PRESS_WINDOW ->
  on_release h g b =
  (set_last_press_time g (press_start_time g),
   if time_since_last_press g <? DOUBLE_PRESS_WINDOW
   then set_double_press_event b 1 else b).
Proof.
  unfold on_release, press_duration, time_since_last_press. intros H.
  replace (_ >=? _) with false.
  - replace (_ <? DOUBLE_PRESS_WINDOW) with true; [reflexivity |].
    symmetry. now apply Z.ltb_lt.
  - symmetry. rewrite Z.geb_leb. apply Z.leb_gt.
    unfold LONG_PRESS_DURATION, DOUBLE_PRESS_WINDOW in *. lia.
Qed.

Lemma wrap32_held (s d : Z) :
  0 <= d < 2 ^ 32 -> wrap32 (wrap32 (s + d) - s) = d.
Proof.
  intros Hd. unfold wrap32. rewrite Zminus_mod_idemp_l.
  replace (s + d - s) with d by lia. now apply Z.mod_small.
Qed.

(** The two classifier flags after an accepted release. *)
Lemma release_flags (h : HAL) (g : Globals) (b : Button) :
  accepts_release h g b = true ->
  let b' := snd (Button_IRQ_Handler h g b) in
  _long_press_event b' =
    (if press_duration h g >=? LONG_PRESS_DURATION
     then 1 else _long_press_event b) /\
  _double_press_event b' =
    (if (press_duration h g <? DOUBLE_PRESS_WINDOW)
        && (time_since_last_press g <? DOUBLE_PRESS_WINDOW)
     then 1 else _double_press_event b).
Proof.
  intros Hr b'. subst b'. rewrite (handler_release _ _ _ Hr).
  rewrite Z.geb_leb.
  destruct (Z.leb_spec LONG_PRESS_DURATION (press_duration h g)) as [Hl | Hl];
    destruct (Z.ltb_spec (press_duration h g) DOUBLE_PRESS_WINDOW) as [Hs | Hs].
  - unfold LONG_PRESS_DURATION, DOUBLE_PRESS_WINDOW in *. lia.
  - rewrite on_release_long by exact Hl. split; reflexivity.
  - rewrite on_release_short by exact Hs.
    change (time_since_last_press (after_debounce h g))
      with (time_since_last_press g).
    destruct (_ <? _); split; reflexivity.
  - rewrite on_release_medium by (rewrite press_duration_after_debounce; lia).
    split; reflexivity.
Qed.

Lemma press_flags (h : HAL) (g : Globals) (b : Button) :
  accepts_release h g b = false ->
  let b' := snd (Button_IRQ_Handler h g b) in
  _long_press_event b' = _long_press_event b /\
  _double_press_event b' = _double_press_event b.
Proof.
  intros Hr. destruct (accepts h g b) eqn:Ha.
  - destruct (accepts_cases _ _ _ Ha) as [Hp | Hr']; [| congruence].
    rewrite (handler_press _ _ _ Hp). split; reflexivity.
  - rewrite (handler_not_accepted _ _ _ Ha). split; reflexivity.
Qed.

(** The two classifier timestamps after an accepted release. *)
Lemma release_times (h : HAL) (g : Globals) (b : Button) :
  accepts_release h g b = true ->
  let g' := fst (Button_IRQ_Handler h g b) in
  press_start_time g' =
    (if press_duration h g >=? LONG_PRESS_DURATION
     then 0 else press_start_time g) /\
  last_press_time g' =
    (if press_duration h g <? DOUBLE_PRESS_WINDOW
     then press_start_time g else last_press_time g).
Proof.
  intros Hr g'. subst g'. rewrite (handler_release _ _ _ Hr).
  rewrite Z.geb_leb.
  destruct (Z.leb_spec LONG_PRESS_DURATION (press_duration h g)) as [Hl | Hl];
    destruct (Z.ltb_spec (press_duration h g) DOUBLE_PRESS_WINDOW) as [Hs | Hs].
  - unfold LONG_PRESS_DURATION, DOUBLE_PRESS_WINDOW in *. lia.
  - rewrite on_release_long by exact Hl. split; reflexivity.
  - rewrite on_release_short by exact Hs. split; reflexivity.
  - rewrite on_release_medium by (rewrite press_duration_after_debounce; lia).
    split; reflexivity.
Qed.

(** C3. At an accepted pressed-to-released transition the press duration is
    the tick minus the recorded press start, on 32 bits.  A duration of
    [LONG_PRESS_DURATION] or more sets the long-press flag and resets the
    press start to 0; a shorter one leaves the flag and the press start as
    they were, so a flag that was clear is set exactly when the duration
    reaches [LONG_PRESS_DURATION].  The bound is inclusive: a release
    exactly 1000 ms after the press start sets the flag, a release 999 ms
    after it does not. *)
Theorem long_press_on_release (h : HAL) (g : Globals) (b : Button) :
  accepts_release h g b = true ->
  let g' := fst (Button_IRQ_Handler h g b) in
  let b' := snd (Button_IRQ_Handler h g b) in
  (LONG_PRESS_DURATION <= press_duration h g ->
     _long_press_event b' = 1 /\ press_start_time g' = 0) /\
  (press_duration h g < LONG_PRESS_DURATION ->
     _long_press_event b' = _long_press_event b /\
     press_start_time g' = press_start_time g) /\
  (_long_press_event b = 0 ->
     (_long_press_event b' = 1 <-> LONG_PRESS_DURATION <= press_duration h g)) /\
  (HAL_GetTick h = wrap32 (press_start_time g + 1000) ->
     _long_press_event b' = 1 /\ press_start_time g' = 0) /\
  (HAL_GetTick h = wrap32 (press_start_time g + 999) ->
     _long_press_event b' = _long_press_event b).
Proof.
  intros Hr g' b'.
  destruct (release_flags h g b Hr) as [Hf _].
  destruct (release_times h g b Hr) as [Ht _].
  fold b' in Hf. fold g' in Ht. rewrite Hf, Ht, Z.geb_leb.
  assert (H1000 : HAL_GetTick h = wrap32 (press_start_time g + 1000) ->
                  press_duration h g = 1000).
  { intros E. unfold press_duration. rewrite E. apply wrap32_held. lia. }
  assert (H999 : HAL_GetTick h = wrap32 (press_start_time g + 999) ->
                 press_duration h g = 999).
  { intros E. unfold press_duration. rewrite E. apply wrap32_held. lia. }
  destruct (Z.leb_spec LONG_PRESS_DURATION (press_duration h g)) as [Hl | Hl];
    unfold LONG_PRESS_DURATION in *.
  - repeat split; intros; try reflexivity; try lia;
      match goal with E : HAL_GetTick h = _ |- _ => apply H999 in E; lia end.
  - repeat split; intros; try reflexivity; try lia; try congruence;
      match goal with E : HAL_GetTick h = _ |- _ => apply H1000 in E; lia end.
Qed.

Lemma long_press_on_release_witness :
  let h := hal_at 1000 GPIO_PIN_SET in
  let b := set_state swa GPIO_PIN_RESET in
  accepts_release h globals0 b = true /\
  _long_press_event (snd (Button_IRQ_Handler h globals0 b)) = 1 /\
  press_start_time (fst (Button_IRQ_Handler h globals0 b)) = 0.
Proof.
  split; [reflexivity |].
  apply (proj1 (long_press_on_release (hal_at 1000 GPIO_PIN_SET) globals0
                  (set_state swa GPIO_PIN_RESET) eq_refl)).
  vm_compute. discriminate.
Defined.

(** The boundary on whole presses: pressed at tick 0 and released at 1000
    or at 999; pressed at 5000 and released at 6000. *)
Example held_1000_is_long :
  _long_press_event
    (snd (irq_trace [hal_at 0 GPIO_PIN_RESET; hal_at 1000 GPIO_PIN_SET]
            globals0 swa)) = 1 /\
  _long_press_event
    (snd (irq_trace [hal_at 5000 GPIO_PIN_RESET; hal_at 6000 GPIO_PIN_SET]
            globals0 swa)) = 1.
Proof. vm_compute. split; reflexivity. Qed.

Example held_999_is_not_long :
  _long_press_event
    (snd (irq_trace [hal_at 0 GPIO_PIN_RESET; hal_at 999 GPIO_PIN_SET]
            globals0 swa)) = 0.
Proof. vm_compute. reflexivity. Qed.

(** C4. At an accepted pressed-to-released transition whose press duration is
    below [DOUBLE_PRESS_WINDOW], the double-press flag is set when the press
    start minus the last recorded short-press start (on 32 bits) is below
    [DOUBLE_PRESS_WINDOW] and left as it was otherwise (a flag that was clear
    is set exactly in the first case), and in both cases the last
    short-press start becomes the press start.  A duration of exactly
    [DOUBLE_PRESS_WINDOW] (or more) touches neither the flag nor the record. *)
Theorem double_press_on_release (h : HAL) (g : Globals) (b : Button) :
  accepts_release h g b = true ->
  let g' := fst (Button_IRQ_Handler h g b) in
  let b' := snd (Button_IRQ_Handler h g b) in
  (press_duration h g < DOUBLE_PRESS_WINDOW ->
     (time_since_last_press g < DOUBLE_PRESS_WINDOW ->
        _double_press_event b' = 1) /\
     (DOUBLE_PRESS_WINDOW <= time_since_last_press g ->
        _double_press_event b' = _double_press_event b) /\
     (_double_press_event b = 0 ->
        (_double_press_event b' = 1 <->
         time_since_last_press g < DOUBLE_PRESS_WINDOW)) /\
     last_press_time g' = press_start_time g) /\
  (press_duration h g = DOUBLE_PRESS_WINDOW ->
     _double_press_event b' = _double_press_event b /\
     last_press_time g' = last_press_time g) /\
  (DOUBLE_PRESS_WINDOW <= press_duration h g ->
     _double_press_event b' = _double_press_event b /\
     last_press_time g' = last_press_time g).
Proof.
  intros Hr g' b'.
  destruct (release_flags h g b Hr) as [_ Hf].
  destruct (release_times h g b Hr) as [_ Ht].
  fold b' in Hf. fold g' in Ht. rewrite Hf, Ht.
  destruct (Z.ltb_spec (press_duration h g) DOUBLE_PRESS_WINDOW) as [Hs | Hs];
    destruct (Z.ltb_spec (time_since_last_press g) DOUBLE_PRESS_WINDOW)
      as [Hp | Hp];
    simpl; repeat split; intros; try reflexivity; try lia; try congruence.
Qed.

Lemma double_press_on_release_witness :
  let h := hal_at 1650 GPIO_PIN_SET in
  let g := mkGlobals 0 3 0 1 1600 1400 1000 in
  let b := set_state swa GPIO_PIN_RESET in
  accepts_release h g b = true /\
  _double_press_event (snd (Button_IRQ_Handler h g b)) = 1.
Proof.
  split; [reflexivity |].
  apply (proj1 (double_press_on_release (hal_at 1650 GPIO_PIN_SET)
                  (mkGlobals 0 3 0 1 1600 1400 1000)
                  (set_state swa GPIO_PIN_RESET) eq_refl));
    vm_compute; reflexivity.
Defined.

(** ** Sequences of edges seen by the handler *)
Lemma wrap32_small (x : Z) : 0 <= x < 2 ^ 32 -> wrap32 x = x.
Proof. intros H. unfold wrap32. now apply Z.mod_small. Qed.

Lemma not_suppressed_after (h : HAL) (g : Globals) :
  ignore_until g <= HAL_GetTick h -> suppressed h g = false.
Proof.
  intros H. unfold suppressed. rewrite Z.gtb_ltb. now apply Z.ltb_ge.
Qed.

(** One short press seen whole: the press edge at [hp], the release edge at
    [hr], both outside the suppression window.  The pair reports a double
    press exactly when the press started less than [DOUBLE_PRESS_WINDOW]
    after the start recorded in [last_press_time], and records its own start
    there. *)
Lemma short_press_cycle (hp hr : HAL) (g : Globals) (b : Button) :
  _state b = GPIO_PIN_SET ->
  raw_level hp b = GPIO_PIN_RESET ->
  raw_level hr b = GPIO_PIN_SET ->
  0 <= HAL_GetTick hp ->
  ignore_until g <= HAL_GetTick hp ->
  HAL_GetTick hp + DEBOUNCE_DURATION <= HAL_GetTick hr ->
  HAL_GetTick hr < 2 ^ 32 ->
  HAL_GetTick hr - HAL_GetTick hp < DOUBLE_PRESS_WINDOW ->
  let '(g1, b1) := Button_IRQ_Handler hp g b in
  let '(g2, b2) := Button_IRQ_Handler hr g1 b1 in
  press_start_time g1 = HAL_GetTick hp /\
  last_press_time g1 = last_press_time g /\
  _double_press_event b1 = _double_press_event b /\
  _long_press_event b1 = _long_press_event b /\
  _state b2 = GPIO_PIN_SET /\
  GPIO_Port b2 = GPIO_Port b /\ _pin b2 = _pin b /\
  ignore_until g2 = wrap32 (HAL_GetTick hr + DEBOUNCE_DURATION) /\
  last_press_time g2 = HAL_GetTick hp /\
  _long_press_event b2 = _long_press_event b /\
  _double_press_event b2 =
    (if wrap32 (HAL_GetTick hp - last_press_time g) <? DOUBLE_PRESS_WINDOW
     then 1 else _double_press_event b).
Proof.
  intros Hst Hlp Hlr H0 Hiu Hdeb Hmax Hshort.
  assert (Hp : accepts_press hp g b = true).
  { unfold accepts_press, accepts.
    rewrite (not_suppressed_after _ _ Hiu), Hlp, Hst. reflexivity. }
  rewrite (handler_press _ _ _ Hp).
  set (g1 := set_press_start_time (after_debounce hp g) (HAL_GetTick hp)).
  set (b1 := set_has_changed (set_state b GPIO_PIN_RESET) 1).
  assert (Hiu1 : ignore_until g1 = HAL_GetTick hp + DEBOUNCE_DURATION).
  { subst g1. simpl. apply wrap32_small.
    unfold DEBOUNCE_DURATION in *. lia. }
  assert (Hr : accepts_release hr g1 b1 = true).
  { unfold accepts_release, accepts.
    rewrite not_suppressed_after by (rewrite Hiu1; lia).
    change (raw_level hr b1) with (raw_level hr b). rewrite Hlr. reflexivity. }
  rewrite (handler_release _ _ _ Hr).
  assert (Hd : press_duration hr (after_debounce hr g1)
               = HAL_GetTick hr - HAL_GetTick hp).
  { unfold press_duration. subst g1. simpl. apply wrap32_small.
    unfold DEBOUNCE_DURATION in *. lia. }
  rewrite on_release_short by (rewrite Hd; exact Hshort).
  change (time_since_last_press (after_debounce hr g1))
    with (wrap32 (HAL_GetTick hp - last_press_time g)).
  destruct (_ <? _); simpl; repeat split.
Qed.

Lemma second_release_of_pair (g : Globals) (b : Button) (h1 h2 h3 h4 : HAL) :
  two_short_presses g b h1 h2 h3 h4 ->
  let '(g3, b3) := irq_trace [h1; h2; h3] g b in
  let '(g4, b4) := Button_IRQ_Handler h4 g3 b3 in
  _double_press_event b4 =
    (if HAL_GetTick h3 - HAL_GetTick h1 <? DOUBLE_PRESS_WINDOW
     then 1 else _double_press_event b3).
Proof.
  intros (Hst & Hl1 & Hl2 & Hl3 & Hl4 & H0 & Hiu & Hd1 & Hd2 & Hd3 & Hmax
          & Hs1 & Hs2).
  assert (HD : 0 < DEBOUNCE_DURATION) by (unfold DEBOUNCE_DURATION; lia).
  pose proof (short_press_cycle h1 h2 g b Hst Hl1 Hl2 H0 Hiu Hd1
                ltac:(lia) Hs1) as C1.
  simpl irq_trace.
  destruct (Button_IRQ_Handler h1 g b) as [g1 b1].
  destruct (Button_IRQ_Handler h2 g1 b1) as [g2 b2].
  destruct C1 as (_ & _ & _ & _ & Hst2 & Hport & Hpin & Hiu2 & Hlast2 & _ & _).
  rewrite wrap32_small in Hiu2 by lia.
  assert (Hl3' : raw_level h3 b2 = GPIO_PIN_RESET)
    by (unfold raw_level in *; now rewrite Hport, Hpin).
  assert (Hl4' : raw_level h4 b2 = GPIO_PIN_SET)
    by (unfold raw_level in *; now rewrite Hport, Hpin).
  pose proof (short_press_cycle h3 h4 g2 b2 Hst2 Hl3' Hl4' ltac:(lia)
                ltac:(lia) Hd3 Hmax Hs2) as C2.
  destruct (Button_IRQ_Handler h3 g2 b2) as [g3 b3].
  destruct (Button_IRQ_Handler h4 g3 b3) as [g4 b4].
  destruct C2 as (_ & _ & Hdbl3 & _ & _ & _ & _ & _ & _ & _ & Hdbl4).
  rewrite Hdbl4, Hlast2, Hdbl3.
  rewrite wrap32_small by lia. reflexivity.
Qed.

Example presses_300_apart_no_double :
  _double_press_event (snd (irq_trace presses_300_apart globals0 swa)) = 0.
Proof. vm_compute. reflexivity. Qed.

(** C5, as stated, fails: with the gap measured from the first release to
    the second press, two 300 ms presses 300 ms apart would have to raise
    the double-press flag, and the handler leaves it clear. *)
Lemma pairing_by_release_gap_fails : ~ pairing_by_release_gap.
Proof.
  intros H.
  specialize (H globals0 swa
                (hal_at 1000 GPIO_PIN_RESET) (hal_at 1300 GPIO_PIN_SET)
                (hal_at 1600 GPIO_PIN_RESET) (hal_at 1900 GPIO_PIN_SET)).
  assert (Hs : two_short_presses globals0 swa
                (hal_at 1000 GPIO_PIN_RESET) (hal_at 1300 GPIO_PIN_SET)
                (hal_at 1600 GPIO_PIN_RESET) (hal_at 1900 GPIO_PIN_SET)).
  { unfold two_short_presses. simpl.
    unfold DEBOUNCE_DURATION, DOUBLE_PRESS_WINDOW. repeat split; lia. }
  specialize (H Hs). revert H. vm_compute.
  intros [H _]. specialize (H eq_refl). discriminate H.
Qed.

Lemma wrap32_held_twice (s d p : Z) :
  0 <= d + p < 2 ^ 32 ->
  wrap32 (wrap32 (wrap32 (s + d) + p) - s) = d + p.
Proof.
  intros H. unfold wrap32. rewrite Zminus_mod_idemp_l.
  replace ((s + d) mod 2 ^ 32 + p - s) with ((s + d) mod 2 ^ 32 + (p - s))
    by lia.
  rewrite Zplus_mod_idemp_l.
  replace (s + d + (p - s)) with (d + p) by lia.
  now apply Z.mod_small.
Qed.

(** C5, amended.  Take two consecutive presses of one button whose four
    edges are each accepted by the handler, the first press lasting [d1] ms,
    the pause between them [p] ms and the second press [d2] ms, with [d1]
    and [d2] below [DOUBLE_PRESS_WINDOW]; the ticks are these elapsed times
    counted modulo 2^32, so the counter may overflow on the way.  The second
    release raises the double-press flag when the second press starts less
    than [DOUBLE_PRESS_WINDOW] after the START of the first one
    ([d1 + p < DOUBLE_PRESS_WINDOW]), and leaves the flag as it was when
    that distance is [DOUBLE_PRESS_WINDOW] or more; the latter is the case
    whenever the pause [p] is [DOUBLE_PRESS_WINDOW] or more. *)
Theorem double_press_pairs_by_start_distance
  (h1 h2 h3 h4 : HAL) (g : Globals) (b : Button) (d1 p d2 : Z) :
  let s1 := Button_IRQ_Handler h1 g b in
  let s2 := Button_IRQ_Handler h2 (fst s1) (snd s1) in
  let s3 := Button_IRQ_Handler h3 (fst s2) (snd s2) in
  let s4 := Button_IRQ_Handler h4 (fst s3) (snd s3) in
  accepts_press h1 g b = true ->
  accepts_release h2 (fst s1) (snd s1) = true ->
  accepts_press h3 (fst s2) (snd s2) = true ->
  accepts_release h4 (fst s3) (snd s3) = true ->
  0 <= d1 < DOUBLE_PRESS_WINDOW ->
  0 <= p ->
  d1 + p < 2 ^ 32 ->
  0 <= d2 < DOUBLE_PRESS_WINDOW ->
  HAL_GetTick h2 = wrap32 (HAL_GetTick h1 + d1) ->
  HAL_GetTick h3 = wrap32 (HAL_GetTick h2 + p) ->
  HAL_GetTick h4 = wrap32 (HAL_GetTick h3 + d2) ->
  (d1 + p < DOUBLE_PRESS_WINDOW -> _double_press_event (snd s4) = 1) /\
  (DOUBLE_PRESS_WINDOW <= d1 + p ->
     _double_press_event (snd s4) = _double_press_event (snd s3)) /\
  (DOUBLE_PRESS_WINDOW <= p ->
     _double_press_event (snd s4) = _double_press_event (snd s3)).
Proof.
  intros s1 s2 s3 s4 Hp1 Hr2 Hp3 Hr4 Hd1 Hp Hsum Hd2 T2 T3 T4.
  assert (HW : DOUBLE_PRESS_WINDOW < 2 ^ 32)
    by (unfold DOUBLE_PRESS_WINDOW; lia).
  (* first press *)
  assert (Hps1 : press_start_time (fst s1) = HAL_GetTick h1)
    by (subst s1; now rewrite (handler_press _ _ _ Hp1)).
  (* first release: a short one, it records the start of the first press *)
  assert (Hpd2 : press_duration h2 (fst s1) = d1).
  { unfold press_duration. rewrite Hps1, T2. apply wrap32_held. lia. }
  destruct (release_times h2 (fst s1) (snd s1) Hr2) as [_ Hlast2].
  fold s2 in Hlast2. rewrite Hpd2, Hps1 in Hlast2.
  replace (d1 <? DOUBLE_PRESS_WINDOW) with true in Hlast2
    by (symmetry; apply Z.ltb_lt; lia).
  (* second press *)
  assert (Hps3 : press_start_time (fst s3) = HAL_GetTick h3)
    by (subst s3; now rewrite (handler_press _ _ _ Hp3)).
  assert (Hlast3 : last_press_time (fst s3) = HAL_GetTick h1)
    by (subst s3; rewrite (handler_press _ _ _ Hp3); exact Hlast2).
  (* second release *)
  assert (Hpd4 : press_duration h4 (fst s3) = d2).
  { unfold press_duration. rewrite Hps3, T4. apply wrap32_held. lia. }
  assert (Hsince : time_since_last_press (fst s3) = d1 + p).
  { unfold time_since_last_press. rewrite Hps3, Hlast3, T3, T2.
    apply wrap32_held_twice. lia. }
  destruct (release_flags h4 (fst s3) (snd s3) Hr4) as [_ Hdbl].
  fold s4 in Hdbl. rewrite Hpd4, Hsince in Hdbl.
  replace (d2 <? DOUBLE_PRESS_WINDOW) with true in Hdbl
    by (symmetry; apply Z.ltb_lt; lia).
  simpl in Hdbl. rewrite Hdbl.
  split; [| split]; intros Hc.
  - apply Z.ltb_lt in Hc. now rewrite Hc.
  - apply Z.ltb_ge in Hc. now rewrite Hc.
  - assert (Hc' : DOUBLE_PRESS_WINDOW <= d1 + p) by lia.
    apply Z.ltb_ge in Hc'. now rewrite Hc'.
Qed.

(** The witness crosses the overflow of the tick counter: edges 450, 250
    and 50 ms before the counter wraps and 150 ms after it. *)
Lemma double_press_pairs_by_start_distance_witness :
  let h1 := hal_at (2 ^ 32 - 450) GPIO_PIN_RESET in
  let h2 := hal_at (2 ^ 32 - 250) GPIO_PIN_SET in
  let h3 := hal_at (2 ^ 32 - 50) GPIO_PIN_RESET in
  let h4 := hal_at 150 GPIO_PIN_SET in
  let s3 := irq_trace [h1; h2; h3] globals0 swa in
  accepts_release h4 (fst s3) (snd s3) = true /\
  _double_press_event (snd (irq_trace [h1; h2; h3; h4] globals0 swa)) = 1.
Proof.
  split; [vm_compute; reflexivity |].
  generalize (double_press_pairs_by_start_distance
                (hal_at (2 ^ 32 - 450) GPIO_PIN_RESET)
                (hal_at (2 ^ 32 - 250) GPIO_PIN_SET)
                (hal_at (2 ^ 32 - 50) GPIO_PIN_RESET)
                (hal_at 150 GPIO_PIN_SET) globals0 swa 200 200 200).
  vm_compute. intros H.
  refine (proj1 (H eq_refl eq_refl eq_refl eq_refl _ _ _ _
                   eq_refl eq_refl eq_refl) eq_refl);
    try (split; [discriminate | reflexivity]);
    try discriminate; reflexivity.
Defined.

(** The same two presses without an overflow on the way. *)
Example double_press_200_200_200 :
  _double_press_event
    (snd (irq_trace [hal_at 1000 GPIO_PIN_RESET; hal_at 1200 GPIO_PIN_SET;
                     hal_at 1400 GPIO_PIN_RESET; hal_at 1600 GPIO_PIN_SET]
            globals0 swa)) = 1.
Proof. vm_compute. reflexivity. Qed.

(** ** Polling accessors *)

(** What a call of the handler does to the changed flag. *)
Lemma handler_changed_flag (h : HAL) (g : Globals) (b : Button) :
  _has_changed (snd (Button_IRQ_Handler h g b)) =
  if accepts h g b then 1 else _has_changed b.
Proof.
  destruct (accepts h g b) eqn:Ha.
  - destruct (accepts_cases _ _ _ Ha) as [Hp | Hr].
    + now rewrite (handler_press _ _ _ Hp).
    + rewrite (handler_release _ _ _ Hr).
      pose proof (on_release_wiring h (after_debounce h g)
                    (set_has_changed (set_state b GPIO_PIN_SET) 1)) as H.
      simpl in H. simpl. intuition.
  - now rewrite (handler_not_accepted _ _ _ Ha).
Qed.

Lemma Button_Has_Changed_clears (b : Button) :
  _has_changed (fst (Button_Has_Changed b)) = 0 /\
  fst (Button_Has_Changed b) = set_has_changed b 0 /\
  (snd (Button_Has_Changed b) = 1 <-> _has_changed b <> 0) /\
  (snd (Button_Has_Changed b) = 0 <-> _has_changed b = 0).
Proof.
  unfold Button_Has_Changed. destruct (_has_changed b =? 0) eqn:E; simpl.
  - apply Z.eqb_eq in E. destruct b; simpl in *. subst.
    repeat split; try congruence; try discriminate.
  - apply Z.eqb_neq in E. repeat split; try congruence; try discriminate.
Qed.

(** [Button_Pressed] in terms of the handler it runs first. *)
Lemma Button_Pressed_unfold (h : HAL) (g : Globals) (b : Button) :
  let g1 := fst (Button_IRQ_Handler h g b) in
  let b1 := snd (Button_IRQ_Handler h g b) in
  let pressed_now :=
    if PinState_eqb (Button_Read h b) GPIO_PIN_RESET then 1 else 0 in
  Button_Pressed h g b =
  (set_is_button_pressed
     (set_is_state_changed g1 (snd (Button_Has_Changed b1))) pressed_now,
   set_has_changed b1 0,
   if snd (Button_Has_Changed b1) =? 0 then 0
   else if pressed_now =? 0 then 0 else 1).
Proof.
  unfold Button_Pressed. pose proof (handler_wiring h g b) as Hw.
  destruct (Button_IRQ_Handler h g b) as [g1 b1]. simpl in *.
  destruct Hw as (Hport & Hpin & _).
  pose proof (Button_Has_Changed_clears b1) as (_ & Hb & _).
  destruct (Button_Has_Changed b1) as [b2 r]. simpl in *. subst b2.
  unfold Button_Read. simpl. rewrite Hport, Hpin. reflexivity.
Qed.

(** What the accessors of the two classifier flags return and leave. *)
Lemma Button_Long_Pressed_unfold (h : HAL) (g : Globals) (b : Button) :
  let g1 := fst (Button_IRQ_Handler h g b) in
  let b1 := snd (Button_IRQ_Handler h g b) in
  Button_Long_Pressed h g b =
  (g1, set_long_press_event b1 0,
   if _long_press_event b1 =? 0 then 0 else 1).
Proof.
  unfold Button_Long_Pressed.
  destruct (Button_IRQ_Handler h g b) as [g1 b1]. simpl.
  destruct (_ =? 0) eqn:E; [| reflexivity].
  apply Z.eqb_eq in E. destruct b1; simpl in *. now subst.
Qed.

Lemma Button_Double_Pressed_unfold (h : HAL) (g : Globals) (b : Button) :
  let g1 := fst (Button_IRQ_Handler h g b) in
  let b1 := snd (Button_IRQ_Handler h g b) in
  Button_Double_Pressed h g b =
  (g1, set_double_press_event b1 0,
   if _double_press_event b1 =? 0 then 0 else 1).
Proof.
  unfold Button_Double_Pressed.
  destruct (Button_IRQ_Handler h g b) as [g1 b1]. simpl.
  destruct (_ =? 0) eqn:E; [| reflexivity].
  apply Z.eqb_eq in E. destruct b1; simpl in *. now subst.
Qed.

(** Between two polls of [Button_Pressed], the changed flag records whether
    some call accepted a transition. *)
Lemma changed_flag_tracks_accepted (cs : list (api * HAL)) :
  forall (g : Globals) (b : Button),
    forallb (fun e => leaves_changed (fst e)) cs = true ->
    _has_changed (snd (fst (run cs g b))) =
    if quiet cs g b then _has_changed b else 1.
Proof.
  induction cs as [| [op h] cs IH]; intros g b Hops; simpl; [reflexivity |].
  simpl in Hops. apply andb_true_iff in Hops as [Hop Hops].
  assert (Hstep : _has_changed (snd (fst (call op h g b))) =
                  if accepts h g b then 1 else _has_changed b).
  { rewrite <- handler_changed_flag.
    destruct op; try discriminate; simpl.
    - reflexivity.
    - now rewrite Button_Long_Pressed_unfold.
    - now rewrite Button_Double_Pressed_unfold. }
  assert (Hu : updates op = true) by (destruct op; try discriminate; reflexivity).
  rewrite Hu. simpl.
  destruct (call op h g b) as [[g1 b1] r]. simpl in Hstep.
  specialize (IH g1 b1 Hops).
  destruct (run cs g1 b1) as [[g2 b2] log]. simpl in *.
  rewrite IH, Hstep.
  destruct (accepts h g b); simpl; [now destruct (quiet cs g1 b1) | reflexivity].
Qed.

(** What [Button_Pressed] returns, through the pin it reads. *)
Lemma Button_Pressed_returns (h : HAL) (g : Globals) (b : Button) :
  let b1 := snd (Button_IRQ_Handler h g b) in
  let r := snd (Button_Pressed h g b) in
  (r = 1 <->
   _has_changed b1 <> 0 /\
   HAL_GPIO_ReadPin h (GPIO_Port b) (_pin b) = GPIO_PIN_RESET)
  /\ (r = 1 \/ r = 0).
Proof.
  intros b1 r. subst r. rewrite Button_Pressed_unfold.
  fold b1. simpl. unfold Button_Read.
  pose proof (Button_Has_Changed_clears b1) as (_ & _ & _ & H0).
  split; [split |].
  - intros Hr. split.
    + destruct (snd (Button_Has_Changed b1) =? 0) eqn:E; [discriminate |].
      apply Z.eqb_neq in E. intros Hz. apply E. now apply H0.
    + destruct (PinState_eqb (HAL_GPIO_ReadPin h (GPIO_Port b) (_pin b))
                  GPIO_PIN_RESET) eqn:E.
      * now apply PinState_eqb_eq.
      * simpl in Hr. destruct (_ =? 0); discriminate.
  - intros [Hn Hl]. apply PinState_eqb_eq in Hl. rewrite Hl. simpl.
    destruct (snd (Button_Has_Changed b1) =? 0) eqn:E; [| reflexivity].
    apply Z.eqb_eq in E. apply H0 in E. contradiction.
  - destruct (_ =? 0); [now right |].
    destruct (_ =? 0); [now right | now left].
Qed.

(** C6. [Button_Pressed] first runs the handler on the button.  It returns 1
    exactly when the changed flag is then set (it was pending from an earlier
    update, or this update accepted a transition) and the pin of the button,
    read through the HAL at the time of the call, is at the pressed level
    [GPIO_PIN_RESET]; it returns 0 otherwise.  It leaves the changed flag
    clear and the rest of the button and the timing variables as the handler
    left them.  Counting from the previous [Button_Pressed]: whatever calls
    of the handler and of the other two accessors come in between, the next
    [Button_Pressed] returns 1 exactly when one of those calls or its own
    update accepted a transition and the pin reads the pressed level. *)
Theorem Button_Pressed_spec (h : HAL) (g : Globals) (b : Button) :
  let g1 := fst (Button_IRQ_Handler h g b) in
  let b1 := snd (Button_IRQ_Handler h g b) in
  let g2 := fst (fst (Button_Pressed h g b)) in
  let b2 := snd (fst (Button_Pressed h g b)) in
  let r := snd (Button_Pressed h g b) in
  (r = 1 <->
   _has_changed b1 <> 0 /\
   HAL_GPIO_ReadPin h (GPIO_Port b) (_pin b) = GPIO_PIN_RESET) /\
  (r = 1 \/ r = 0) /\
  (_has_changed b1 <> 0 <-> _has_changed b <> 0 \/ accepts h g b = true) /\
  _has_changed b2 = 0 /\
  b2 = set_has_changed b1 0 /\
  ignore_until g2 = ignore_until g1 /\
  press_start_time g2 = press_start_time g1 /\
  last_press_time g2 = last_press_time g1 /\
  (forall cs h',
      forallb (fun e => leaves_changed (fst e)) cs = true ->
      let g3 := fst (fst (run cs g2 b2)) in
      let b3 := snd (fst (run cs g2 b2)) in
      snd (Button_Pressed h' g3 b3) = 1 <->
      (quiet cs g2 b2 = false \/ accepts h' g3 b3 = true) /\
      HAL_GPIO_ReadPin h' (GPIO_Port b) (_pin b) = GPIO_PIN_RESET).
Proof.
  pose proof Button_Pressed_returns as Hone.
  assert (Hpend : forall h g b,
             _has_changed (snd (Button_IRQ_Handler h g b)) <> 0 <->
             _has_changed b <> 0 \/ accepts h g b = true).
  { clear. intros h g b. rewrite handler_changed_flag. split.
    - destruct (accepts h g b); intros H; [now right | now left].
    - intros [H | H]; [| now rewrite H].
      destruct (accepts h g b); [discriminate | exact H]. }
  assert (Hwire : forall cs g b,
             forallb (fun e => leaves_changed (fst e)) cs = true ->
             GPIO_Port (snd (fst (run cs g b))) = GPIO_Port b /\
             _pin (snd (fst (run cs g b))) = _pin b).
  { clear. induction cs as [| [op h0] cs IH]; intros g b Hops; simpl;
      [now split |].
    simpl in Hops. apply andb_true_iff in Hops as [Hop Hops].
    assert (Hw : GPIO_Port (snd (fst (call op h0 g b))) = GPIO_Port b /\
                 _pin (snd (fst (call op h0 g b))) = _pin b).
    { pose proof (handler_wiring h0 g b) as (W1 & W2 & _).
      destruct op; try discriminate; simpl;
        rewrite ?Button_Long_Pressed_unfold, ?Button_Double_Pressed_unfold;
        simpl; now split. }
    destruct (call op h0 g b) as [[g1 b1] r]. simpl in Hw.
    specialize (IH g1 b1 Hops).
    destruct (run cs g1 b1) as [[g2 b2] log]. simpl in *.
    destruct Hw as [W1 W2], IH as [I1 I2]. split; congruence. }
  intros g1 b1 g2 b2 r.
  destruct (Hone h g b) as [Hr Hr01]. fold b1 r in Hr, Hr01.
  assert (Hb2 : _has_changed b2 = 0)
    by (subst b2; now rewrite Button_Pressed_unfold).
  assert (Hb2w : GPIO_Port b2 = GPIO_Port b /\ _pin b2 = _pin b).
  { subst b2. rewrite Button_Pressed_unfold. simpl.
    pose proof (handler_wiring h g b) as (W1 & W2 & _). now split. }
  repeat match goal with |- _ /\ _ => split end;
    try assumption; try apply Hpend;
    try (subst g2 b2; rewrite Button_Pressed_unfold; reflexivity).
  intros cs h' Hops g3 b3.
  destruct (Hone h' g3 b3) as [Hr' _]. simpl in Hr'. rewrite Hr'.
  rewrite Hpend. subst b3.
  destruct (Hwire cs g2 b2 Hops) as [W1 W2]. destruct Hb2w as [V1 V2].
  rewrite W1, W2, V1, V2.
  rewrite (changed_flag_tracks_accepted cs g2 b2 Hops), Hb2.
  destruct (quiet cs g2 b2); intuition congruence.
Qed.

(** A release polled at 1000, the handler at 1100 and 1400 (the press edge),
    the next poll at 1500 with the pin low: it returns 1. *)
Lemma Button_Pressed_spec_witness :
  let cs := [(API_Long_Pressed, hal_at 1100 GPIO_PIN_SET);
             (API_IRQ_Handler, hal_at 1400 GPIO_PIN_RESET)] in
  let s := Button_Pressed (hal_at 1000 GPIO_PIN_SET) globals0 swa in
  let s3 := run cs (fst (fst s)) (snd (fst s)) in
  forallb (fun e => leaves_changed (fst e)) cs = true /\
  quiet cs (fst (fst s)) (snd (fst s)) = false /\
  HAL_GPIO_ReadPin (hal_at 1500 GPIO_PIN_RESET) (GPIO_Port swa) (_pin swa)
  = GPIO_PIN_RESET /\
  snd (Button_Pressed (hal_at 1500 GPIO_PIN_RESET) (fst (fst s3)) (snd (fst s3)))
  = 1.
Proof.
  split; [reflexivity | split; [reflexivity | split; [reflexivity |]]].
  destruct (Button_Pressed_spec (hal_at 1000 GPIO_PIN_SET) globals0 swa)
    as (_ & _ & _ & _ & _ & _ & _ & _ & H).
  apply (H [(API_Long_Pressed, hal_at 1100 GPIO_PIN_SET);
            (API_IRQ_Handler, hal_at 1400 GPIO_PIN_RESET)]
           (hal_at 1500 GPIO_PIN_RESET) eq_refl).
  split; [left; reflexivity | reflexivity].
Defined.

(** ** One-shot flags *)

(** The handler writes 1 into a flag exactly at its event and does not
    touch it otherwise. *)
Lemma handler_flag (f : flag) (h : HAL) (g : Globals) (b : Button) :
  flag_of f (snd (Button_IRQ_Handler h g b)) =
  if raises f h g b then 1 else flag_of f b.
Proof.
  destruct f; simpl; [apply handler_changed_flag | |];
    destruct (accepts_release h g b) eqn:Hr; simpl;
    try (now apply (press_flags h g b Hr)).
  - now apply (release_flags h g b Hr).
  - now apply (release_flags h g b Hr).
Qed.

(** Every accessor runs the handler, returns 1 only if its flag is then set,
    and leaves its flag clear. *)
Lemma accessor_consumes (f : flag) (h : HAL) (g : Globals) (b : Button) :
  let b1 := snd (Button_IRQ_Handler h g b) in
  let b2 := snd (fst (accessor f h g b)) in
  let r := snd (accessor f h g b) in
  flag_of f b2 = 0 /\ (r = 1 \/ r = 0) /\ (flag_of f b1 = 0 -> r = 0) /\
  (f <> Changed -> flag_of f b1 <> 0 -> r = 1).
Proof.
  destruct f; simpl.
  - rewrite Button_Pressed_unfold. simpl.
    pose proof (Button_Has_Changed_clears (snd (Button_IRQ_Handler h g b)))
      as (_ & _ & _ & H0).
    repeat split.
    + destruct (_ =? 0); [now right |]. destruct (_ =? 0); auto.
    + intros Hz. apply H0 in Hz. now rewrite Hz.
    + congruence.
  - rewrite Button_Long_Pressed_unfold. simpl. repeat split.
    + destruct (_ =? 0); auto.
    + now intros ->.
    + intros _ Hn. apply Z.eqb_neq in Hn. now rewrite Hn.
  - rewrite Button_Double_Pressed_unfold. simpl. repeat split.
    + destruct (_ =? 0); auto.
    + now intros ->.
    + intros _ Hn. apply Z.eqb_neq in Hn. now rewrite Hn.
Qed.

(** The flag after a run of handler invocations. *)
Lemma irq_trace_flag (f : flag) (hs : list HAL) :
  forall (g : Globals) (b : Button),
    flag_of f (snd (irq_trace hs g b)) =
    if raised_by f hs g b then 1 else flag_of f b.
Proof.
  induction hs as [| h hs IH]; intros g b; simpl; [reflexivity |].
  pose proof (handler_flag f h g b) as Hh.
  destruct (Button_IRQ_Handler h g b) as [g1 b1]. simpl in Hh.
  rewrite IH, Hh.
  destruct (raises f h g b); simpl; [| reflexivity].
  now destruct (raised_by f hs g1 b1).
Qed.

(** A press accepted at 1000 (interrupt), polled at 1100 while the pin reads
    released, polled again at 1150: both polls return 0. *)
Example press_consumed_unreported :
  let s0 := Button_IRQ_Handler (hal_at 1000 GPIO_PIN_RESET) globals0 swa in
  let s1 := Button_Pressed (hal_at 1100 GPIO_PIN_SET) (fst s0) (snd s0) in
  let s2 := Button_Pressed (hal_at 1150 GPIO_PIN_SET)
              (fst (fst s1)) (snd (fst s1)) in
  _has_changed (snd s0) = 1 /\ snd s1 = 0 /\
  _has_changed (snd (fst s1)) = 0 /\ snd s2 = 0.
Proof. vm_compute. repeat split. Qed.

(** C7, as stated, fails for the changed flag: a change that is pending when
    [Button_Pressed] is called while the pin reads released is consumed by
    that call and reported by none. *)
Lemma reported_exactly_once_fails : ~ reported_exactly_once.
Proof.
  intros H.
  generalize (H Changed (hal_at 1100 GPIO_PIN_SET) (hal_at 1150 GPIO_PIN_SET) []
                (fst (Button_IRQ_Handler (hal_at 1000 GPIO_PIN_RESET)
                        globals0 swa)) _ _ _
                (snd (Button_IRQ_Handler (hal_at 1000 GPIO_PIN_RESET)
                        globals0 swa)) _ _ _ _ _
                eq_refl eq_refl eq_refl).
  vm_compute. intros H'.
  assert (E : (0, 0) = (1, 0)) by (apply H'; [reflexivity | reflexivity | discriminate]).
  discriminate E.
Qed.

(** C7, amended.  Take two consecutive calls of the accessor of a flag, with
    any number of interrupt-driven invocations of the handler in between,
    and no event raising that flag after the first call (neither by those
    invocations nor by the update of the second call).  The first call
    leaves the flag clear and the second returns 0, so the two calls return
    (1, 0) or (0, 0), never (1, 1).  For the long-press and the double-press
    flag the first call returns 1 exactly when the flag is set once its
    update has run: such an event is reported to exactly one call.  For the
    changed flag the first call returns 1 exactly when the flag is set and
    the pin reads the pressed level; it clears the flag in both cases, so a
    change is reported to at most one call. *)
Theorem one_shot_flag_report
  (f : flag) (h1 h2 : HAL) (hs : list HAL)
  (g g1 g1' g2 : Globals) (b b1 b1' b2 : Button) (r1 r2 : Z) :
  accessor f h1 g b = (g1, b1, r1) ->
  irq_trace hs g1 b1 = (g1', b1') ->
  accessor f h2 g1' b1' = (g2, b2, r2) ->
  raised_by f hs g1 b1 = false ->
  raises f h2 g1' b1' = false ->
  let pending := flag_of f (snd (Button_IRQ_Handler h1 g b)) in
  flag_of f b1 = 0 /\
  r2 = 0 /\
  ((r1, r2) = (1, 0) \/ (r1, r2) = (0, 0)) /\
  ~ (r1 = 1 /\ r2 = 1) /\
  (f <> Changed -> (r1 = 1 <-> pending <> 0)) /\
  (f = Changed ->
   (r1 = 1 <->
    pending <> 0 /\
    HAL_GPIO_ReadPin h1 (GPIO_Port b) (_pin b) = GPIO_PIN_RESET)).
Proof.
  intros E1 Et E2 Hq Hq2 pending.
  pose proof (accessor_consumes f h1 g b) as (Hclr & Hr1 & Hzero & Hone).
  rewrite E1 in Hclr, Hr1, Hzero, Hone. simpl in Hclr, Hr1, Hzero, Hone.
  fold pending in Hzero, Hone.
  pose proof (irq_trace_flag f hs g1 b1) as Hmid.
  rewrite Et, Hq, Hclr in Hmid. simpl in Hmid.
  pose proof (accessor_consumes f h2 g1' b1') as (_ & _ & Hz & _).
  rewrite E2 in Hz. simpl in Hz.
  rewrite handler_flag, Hq2 in Hz. specialize (Hz Hmid). subst r2.
  split; [exact Hclr | split; [reflexivity | split; [| split; [| split]]]].
  - destruct Hr1 as [-> | ->]; auto.
  - intros [_ H]. discriminate H.
  - intros Hf. split.
    + intros Hr Hp. apply Hzero in Hp. congruence.
    + now apply Hone.
  - intros ->. subst pending. simpl.
    pose proof (Button_Pressed_returns h1 g b) as [Hiff _].
    simpl in E1, Hiff. rewrite E1 in Hiff. exact Hiff.
Qed.

(** A long press released at 2000 and polled there, the handler at 2100
    and 2300, the next poll at 2400: the polls return 1 and 0. *)
Lemma one_shot_flag_report_witness :
  let h1 := hal_at 2000 GPIO_PIN_SET in
  let hs := [hal_at 2100 GPIO_PIN_SET; hal_at 2300 GPIO_PIN_RESET] in
  let h2 := hal_at 2400 GPIO_PIN_RESET in
  let b := set_state swa GPIO_PIN_RESET in
  let s1 := accessor LongPress h1 globals0 b in
  let m := irq_trace hs (fst (fst s1)) (snd (fst s1)) in
  let s2 := accessor LongPress h2 (fst m) (snd m) in
  raised_by LongPress hs (fst (fst s1)) (snd (fst s1)) = false /\
  raises LongPress h2 (fst m) (snd m) = false /\
  flag_of LongPress (snd (Button_IRQ_Handler h1 globals0 b)) <> 0 /\
  snd s1 = 1 /\ snd s2 = 0.
Proof.
  split; [vm_compute; reflexivity | split; [vm_compute; reflexivity |]].
  split; [vm_compute; discriminate |].
  generalize (one_shot_flag_report LongPress
                (hal_at 2000 GPIO_PIN_SET) (hal_at 2400 GPIO_PIN_RESET)
                [hal_at 2100 GPIO_PIN_SET; hal_at 2300 GPIO_PIN_RESET]
                globals0 _ _ _ (set_state swa GPIO_PIN_RESET) _ _ _ _ _
                eq_refl eq_refl eq_refl).
  vm_compute. intros H.
  destruct (H eq_refl eq_refl) as (_ & H2 & _ & _ & Hlong & _).
  split; [apply Hlong; discriminate | exact H2].
Defined.

(** ** The whole interface *)

(** The button a call leaves, in terms of the handler it runs. *)
Lemma call_flags (op : api) (h : HAL) (g : Globals) (b : Button) :
  updates op = true ->
  let b1 := snd (Button_IRQ_Handler h g b) in
  let b2 := snd (fst (call op h g b)) in
  (_long_press_event b2 = _long_press_event b1 \/ _long_press_event b2 = 0) /\
  (_double_press_event b2 = _double_press_event b1 \/
   _double_press_event b2 = 0) /\
  (_has_changed b2 = _has_changed b1 \/ _has_changed b2 = 0).
Proof.
  destruct op; simpl; try discriminate; intros _.
  - auto.
  - rewrite Button_Pressed_unfold. simpl. auto.
  - rewrite Button_Long_Pressed_unfold. simpl. auto.
  - rewrite Button_Double_Pressed_unfold. simpl. auto.
Qed.

(** The accessors keep every value in range as well. *)
Lemma call_in_range (op : api) (h : HAL) (g : Globals) (b : Button) :
  updates op = true ->
  HAL_in_range h -> Globals_in_range g -> Button_in_range b ->
  Globals_in_range (fst (fst (call op h g b))) /\
  Button_in_range (snd (fst (call op h g b))) /\
  is_uint 8 (snd (call op h g b)).
Proof.
  intros Hu Hh Hg Hb.
  pose proof (handler_in_range h g b Hh Hg Hb) as [Hg1 Hb1].
  destruct op; try discriminate; simpl.
  - range_split.
  - rewrite Button_Pressed_unfold. simpl.
    assert (Hr : snd (Button_Has_Changed (snd (Button_IRQ_Handler h g b))) = 0
                 \/ snd (Button_Has_Changed (snd (Button_IRQ_Handler h g b)))
                    = 1).
    { unfold Button_Has_Changed. destruct (_ =? 0); simpl; auto. }
    destruct Hr as [-> | ->];
      destruct (PinState_eqb (Button_Read h b) GPIO_PIN_RESET); simpl;
      range_split.
  - rewrite Button_Long_Pressed_unfold. simpl.
    destruct (_ =? 0); range_split.
  - rewrite Button_Double_Pressed_unfold. simpl.
    destruct (_ =? 0); range_split.
Qed.

(** C8. Whatever the state and whichever entry point is called, the
    long-press flag or the double-press flag can be clear before the call and
    set after it only if the call runs the handler and the handler accepts a
    pressed-to-released transition in that call. *)
Theorem classifier_flags_rise_only_on_release
  (op : api) (h : HAL) (g : Globals) (b : Button) :
  let b' := snd (fst (call op h g b)) in
  (_long_press_event b = 0 /\ _long_press_event b' <> 0) \/
  (_double_press_event b = 0 /\ _double_press_event b' <> 0) ->
  updates op = true /\
  accepts_release h g b = true /\
  _state b = GPIO_PIN_RESET /\ raw_level h b = GPIO_PIN_SET.
Proof.
  intros b' H. subst b'.
  destruct (updates op) eqn:Hu.
  - assert (Hr : accepts_release h g b = true).
    { destruct (accepts_release h g b) eqn:Hr; [reflexivity | exfalso].
      pose proof (press_flags h g b Hr) as [Hl Hd].
      pose proof (call_flags op h g b Hu) as (Cl & Cd & _).
      simpl in Hl, Hd, Cl, Cd. rewrite Hl in Cl. rewrite Hd in Cd.
      destruct H as [[H0 H1] | [H0 H1]]; [destruct Cl | destruct Cd]; congruence. }
    repeat split; try assumption.
    + unfold accepts_release, accepts in Hr.
      destruct (raw_level h b), (_state b); simpl in Hr;
        rewrite ?andb_false_r in Hr; try discriminate; reflexivity.
    + unfold accepts_release in Hr. apply andb_true_iff in Hr as [_ Hr].
      now apply PinState_eqb_eq.
  - destruct op; try discriminate. simpl in H.
    destruct H as [[_ H] | [_ H]]; contradiction.
Qed.

Lemma classifier_flags_rise_only_on_release_witness :
  let h := hal_at 1000 GPIO_PIN_SET in
  let b := set_state swa GPIO_PIN_RESET in
  (_long_press_event b = 0 /\
   _long_press_event (snd (fst (call API_Pressed h globals0 b))) <> 0) /\
  updates API_Pressed = true /\ accepts_release h globals0 b = true.
Proof.
  assert (H : _long_press_event (set_state swa GPIO_PIN_RESET) = 0 /\
              _long_press_event
                (snd (fst (call API_Pressed (hal_at 1000 GPIO_PIN_SET) globals0
                             (set_state swa GPIO_PIN_RESET)))) <> 0).
  { split; [reflexivity | vm_compute; discriminate]. }
  split; [exact H |].
  destruct (classifier_flags_rise_only_on_release API_Pressed
              (hal_at 1000 GPIO_PIN_SET) globals0
              (set_state swa GPIO_PIN_RESET) (or_introl H)) as (Hu & Hr & _).
  exact (conj Hu Hr).
Defined.

(** ** A change consumed without being reported *)

Lemma call_keeps_changed_clear (op : api) (h : HAL) (g : Globals) (b : Button) :
  _has_changed b = 0 ->
  updates op && accepts h g b = false ->
  _has_changed (snd (fst (call op h g b))) = 0 /\
  (op = API_Pressed -> snd (call op h g b) = 0).
Proof.
  intros Hz Hq. destruct (updates op) eqn:Hu; simpl in Hq.
  - assert (H1 : _has_changed (snd (Button_IRQ_Handler h g b)) = 0)
      by now rewrite handler_changed_flag, Hq.
    split.
    + pose proof (call_flags op h g b Hu) as (_ & _ & [Hc | Hc]);
        simpl in Hc; congruence.
    + intros ->. simpl.
      pose proof (accessor_consumes Changed h g b) as (_ & _ & H & _).
      now apply H.
  - destruct op; try discriminate. simpl. split; [reflexivity | discriminate].
Qed.

(** Once the changed flag is clear, no call of a sequence that accepts no
    new transition makes [Button_Pressed] return 1. *)
Lemma quiet_run_reports_nothing (cs : list (api * HAL)) :
  forall (g : Globals) (b : Button),
    _has_changed b = 0 ->
    quiet cs g b = true ->
    Forall (fun e => fst e = API_Pressed -> snd e = 0) (snd (run cs g b)).
Proof.
  induction cs as [| [op h] cs IH]; intros g b Hz Hq; simpl.
  - constructor.
  - simpl in Hq. apply andb_true_iff in Hq as [Hh Hq].
    apply negb_true_iff in Hh.
    pose proof (call_keeps_changed_clear op h g b Hz Hh) as [Hc Hr].
    destruct (call op h g b) as [[g1 b1] r]. simpl in Hc, Hr.
    specialize (IH g1 b1 Hc Hq).
    destruct (run cs g1 b1) as [[g2 b2] log]. simpl in *.
    constructor; [exact Hr | exact IH].
Qed.

(** C10. [Button_Pressed] leaves the changed flag clear on every call, also
    on the calls that return 0: when the accepted change is a release, and
    when a pending press is polled while the pin reads released.  After such
    a call no later call of any entry point reports the change: in every
    sequence of calls that accepts no new transition, each [Button_Pressed]
    returns 0. *)
Theorem Button_Pressed_always_consumes :
  (forall h g b, _has_changed (snd (fst (Button_Pressed h g b))) = 0) /\
  (exists h g b,
      accepts_release h g b = true /\
      snd (Button_Pressed h g b) = 0 /\
      _has_changed (snd (fst (Button_Pressed h g b))) = 0) /\
  (exists h g b,
      _has_changed b = 1 /\ _state b = GPIO_PIN_RESET /\
      raw_level h b = GPIO_PIN_SET /\
      snd (Button_Pressed h g b) = 0 /\
      _has_changed (snd (fst (Button_Pressed h g b))) = 0) /\
  (forall h g b cs,
      let g1 := fst (fst (Button_Pressed h g b)) in
      let b1 := snd (fst (Button_Pressed h g b)) in
      quiet cs g1 b1 = true ->
      Forall (fun e => fst e = API_Pressed -> snd e = 0) (snd (run cs g1 b1))).
Proof.
  assert (Hclr : forall h g b,
             _has_changed (snd (fst (Button_Pressed h g b))) = 0).
  { intros h g b. rewrite Button_Pressed_unfold. reflexivity. }
  split; [exact Hclr | split; [| split]].
  - exists (hal_at 1300 GPIO_PIN_SET), globals0, (set_state swa GPIO_PIN_RESET).
    vm_compute. repeat split.
  - exists (hal_at 1100 GPIO_PIN_SET),
           (fst (Button_IRQ_Handler (hal_at 1000 GPIO_PIN_RESET) globals0 swa)),
           (snd (Button_IRQ_Handler (hal_at 1000 GPIO_PIN_RESET) globals0 swa)).
    vm_compute. repeat split.
  - intros h g b cs g1 b1 Hq. apply quiet_run_reports_nothing; [| exact Hq].
    apply Hclr.
Qed.

Lemma Button_Pressed_always_consumes_witness :
  let h := hal_at 1300 GPIO_PIN_SET in
  let b := set_state swa GPIO_PIN_RESET in
  let cs := [(API_Pressed, hal_at 1310 GPIO_PIN_SET);
             (API_Long_Pressed, hal_at 1320 GPIO_PIN_SET);
             (API_Pressed, hal_at 1600 GPIO_PIN_SET)] in
  let g1 := fst (fst (Button_Pressed h globals0 b)) in
  let b1 := snd (fst (Button_Pressed h globals0 b)) in
  quiet cs g1 b1 = true /\
  Forall (fun e => fst e = API_Pressed -> snd e = 0) (snd (run cs g1 b1)).
Proof.
  split; [vm_compute; reflexivity |].
  apply (proj2 (proj2 (proj2 Button_Pressed_always_consumes))).
  vm_compute. reflexivity.
Defined.

(** ** Timing state shared by all buttons *)

(** C9. The deadline, the press start and the last press start belong to
    the handler, not to a button: there are two buttons on distinct pins and
    interleaved calls for which what button B ends with differs from what
    the same calls for B give when A is left alone.  A's press makes the
    handler ignore B's press (debounce); A's press shortens B's measured hold
    so that B's long press is lost; A's short press followed by B's short
    press is reported as a double press of B. *)
Theorem timing_state_is_shared :
  (exists a b evs g,
      _pin a <> _pin b /\
      _state (TwoButtons.final_B evs g a b) <>
      _state (TwoButtons.final_B (TwoButtons.only_B evs) g a b)) /\
  (exists a b evs g,
      _pin a <> _pin b /\
      _long_press_event (TwoButtons.final_B evs g a b) <>
      _long_press_event (TwoButtons.final_B (TwoButtons.only_B evs) g a b)) /\
  (exists a b evs g,
      _pin a <> _pin b /\
      _double_press_event (TwoButtons.final_B evs g a b) <>
      _double_press_event (TwoButtons.final_B (TwoButtons.only_B evs) g a b)).
Proof.
  split; [| split].
  - exists TwoButtons.btnA, TwoButtons.btnB, TwoButtons.press_B_after_A, globals0.
    vm_compute. split; discriminate.
  - exists TwoButtons.btnA, TwoButtons.btnB, TwoButtons.hold_B_press_A, globals0.
    vm_compute. split; discriminate.
  - exists TwoButtons.btnA, TwoButtons.btnB, TwoButtons.tap_A_tap_B, globals0.
    vm_compute. split; discriminate.
Qed.

(** The three runs, spelled out. *)
Example shared_debounce :
  _state (TwoButtons.final_B TwoButtons.press_B_after_A globals0
            TwoButtons.btnA TwoButtons.btnB) = GPIO_PIN_SET /\
  _state (TwoButtons.final_B (TwoButtons.only_B TwoButtons.press_B_after_A)
            globals0 TwoButtons.btnA TwoButtons.btnB) = GPIO_PIN_RESET.
Proof. vm_compute. split; reflexivity. Qed.

Example shared_press_start :
  _long_press_event (TwoButtons.final_B TwoButtons.hold_B_press_A globals0
                       TwoButtons.btnA TwoButtons.btnB) = 0 /\
  _long_press_event
    (TwoButtons.final_B (TwoButtons.only_B TwoButtons.hold_B_press_A)
       globals0 TwoButtons.btnA TwoButtons.btnB) = 1.
Proof. vm_compute. split; reflexivity. Qed.

Example shared_last_press :
  _double_press_event (TwoButtons.final_B TwoButtons.tap_A_tap_B globals0
                         TwoButtons.btnA TwoButtons.btnB) = 1 /\
  _double_press_event
    (TwoButtons.final_B (TwoButtons.only_B TwoButtons.tap_A_tap_B)
       globals0 TwoButtons.btnA TwoButtons.btnB) = 0.
Proof. vm_compute. split; reflexivity. Qed.

(** * Further properties of the code *)

(** ** Running the update again *)

Lemma handler_settled_state (h : HAL) (g : Globals) (b : Button) :
  _state (snd (Button_IRQ_Handler h g b)) =
  if accepts h g b then raw_level h b else _state b.
Proof.
  destruct (accepts h g b) eqn:Ha.
  - destruct (accepts_cases _ _ _ Ha) as [Hp | Hr].
    + rewrite (handler_press _ _ _ Hp). simpl.
      unfold accepts_press in Hp. apply andb_true_iff in Hp as [_ Hp].
      apply PinState_eqb_eq in Hp. now rewrite Hp.
    + rewrite (handler_release _ _ _ Hr).
      pose proof (on_release_wiring h (after_debounce h g)
                    (set_has_changed (set_state b GPIO_PIN_SET) 1)) as H.
      simpl in H. destruct H as (_ & _ & _ & H & _). rewrite H. simpl.
      unfold accepts_release in Hr. apply andb_true_iff in Hr as [_ Hr].
      apply PinState_eqb_eq in Hr. now rewrite Hr.
  - now rewrite (handler_not_accepted _ _ _ Ha).
Qed.

Lemma handler_twice (h : HAL) (g : Globals) (b : Button) :
  Button_IRQ_Handler h (fst (Button_IRQ_Handler h g b))
                     (snd (Button_IRQ_Handler h g b))
  = Button_IRQ_Handler h g b.
Proof.
  pose proof (handler_settled_state h g b) as Hst.
  pose proof (handler_wiring h g b) as (Hport & Hpin & _).
  destruct (accepts h g b) eqn:Ha.
  - destruct (Button_IRQ_Handler h g b) as [g1 b1]. simpl in *.
    apply handler_same_level. unfold raw_level in *.
    now rewrite Hport, Hpin, Hst.
  - rewrite (handler_not_accepted _ _ _ Ha). simpl.
    now apply handler_not_accepted.
Qed.

(** X1. Running the handler a second time on the same snapshot changes
    nothing more, also when the first run accepted a transition (the level
    it has just settled is the level it reads again).  Hence an interrupt
    followed by a poll at the same instant gives what the poll alone gives,
    for each of the three accessors. *)
Theorem update_is_idempotent (f : flag) (h : HAL) (g : Globals) (b : Button) :
  let s := Button_IRQ_Handler h g b in
  Button_IRQ_Handler h (fst s) (snd s) = s /\
  accessor f h (fst s) (snd s) = accessor f h g b.
Proof.
  intros s. pose proof (handler_twice h g b) as Hid. fold s in Hid.
  split; [exact Hid |].
  destruct f; simpl;
    unfold Button_Pressed, Button_Long_Pressed, Button_Double_Pressed;
    rewrite Hid; reflexivity.
Qed.

(** ** The debounce window in ticks *)

Lemma wrap32_once (x : Z) :
  2 ^ 32 <= x < 2 * 2 ^ 32 -> wrap32 x = x - 2 ^ 32.
Proof.
  intros H. unfold wrap32. symmetry.
  apply Z.mod_unique with (q := 1); lia.
Qed.

(** X2. When the tick of an accepted transition plus [DEBOUNCE_DURATION]
    still fits in 32 bits, the calls suppressed afterwards are exactly those
    whose tick is below that sum, for every button served by the handler;
    so the next transition that is accepted, on whichever button, comes at
    least [DEBOUNCE_DURATION] ticks later. *)
Theorem debounce_window_in_ticks
  (h h' : HAL) (g : Globals) (b b' : Button) :
  accepts h g b = true ->
  HAL_in_range h ->
  HAL_GetTick h + DEBOUNCE_DURATION < 2 ^ 32 ->
  let g1 := fst (Button_IRQ_Handler h g b) in
  (suppressed h' g1 = true <->
   HAL_GetTick h' < HAL_GetTick h + DEBOUNCE_DURATION) /\
  (accepts h' g1 b' = true ->
   HAL_GetTick h + DEBOUNCE_DURATION <= HAL_GetTick h').
Proof.
  intros Ha [H0 _] Hfit g1.
  assert (Hiu : ignore_until g1 = HAL_GetTick h + DEBOUNCE_DURATION).
  { subst g1. rewrite (accepted_deadline _ _ _ Ha). apply wrap32_small.
    unfold HAL_GetTick, DEBOUNCE_DURATION in *. lia. }
  assert (Hs : suppressed h' g1 = true <->
               HAL_GetTick h' < HAL_GetTick h + DEBOUNCE_DURATION).
  { unfold suppressed. rewrite Hiu, Z.gtb_ltb. apply Z.ltb_lt. }
  split; [exact Hs |].
  intros Ha'. unfold accepts in Ha'. apply andb_true_iff in Ha' as [Hn _].
  apply negb_true_iff in Hn.
  destruct (Z_lt_le_dec (HAL_GetTick h')
              (HAL_GetTick h + DEBOUNCE_DURATION)) as [Hlt | Hge];
    [| exact Hge].
  apply Hs in Hlt. congruence.
Qed.

Lemma debounce_window_in_ticks_witness :
  let h := hal_at 1000 GPIO_PIN_RESET in
  let g1 := fst (Button_IRQ_Handler h globals0 swa) in
  accepts h globals0 swa = true /\
  (suppressed (hal_at 1199 GPIO_PIN_SET) g1 = true <-> 1199 < 1000 + 200).
Proof.
  split; [reflexivity |].
  apply (debounce_window_in_ticks (hal_at 1000 GPIO_PIN_RESET)
           (hal_at 1199 GPIO_PIN_SET) globals0 swa swa eq_refl).
  - unfold HAL_in_range, is_uint. simpl. lia.
  - simpl. unfold DEBOUNCE_DURATION. lia.
Defined.

(** X3. When the tick of an accepted transition plus [DEBOUNCE_DURATION]
    exceeds the 32-bit range, the stored deadline is that sum minus 2^32:
    the calls suppressed afterwards are those whose tick is below the
    wrapped deadline, and no call at the tick of the transition or later in
    the same counter period is suppressed. *)
Theorem debounce_window_at_overflow
  (h h' : HAL) (g : Globals) (b : Button) :
  accepts h g b = true ->
  HAL_in_range h ->
  2 ^ 32 <= HAL_GetTick h + DEBOUNCE_DURATION ->
  let g1 := fst (Button_IRQ_Handler h g b) in
  ignore_until g1 = HAL_GetTick h + DEBOUNCE_DURATION - 2 ^ 32 /\
  (suppressed h' g1 = true <->
   HAL_GetTick h' < HAL_GetTick h + DEBOUNCE_DURATION - 2 ^ 32) /\
  (HAL_GetTick h <= HAL_GetTick h' -> suppressed h' g1 = false).
Proof.
  intros Ha [H0 H1] Hover g1.
  assert (Hiu : ignore_until g1 = HAL_GetTick h + DEBOUNCE_DURATION - 2 ^ 32).
  { subst g1. rewrite (accepted_deadline _ _ _ Ha). apply wrap32_once.
    unfold HAL_GetTick, DEBOUNCE_DURATION in *. lia. }
  split; [exact Hiu | split].
  - unfold suppressed. rewrite Hiu, Z.gtb_ltb. apply Z.ltb_lt.
  - intros Hle. apply not_suppressed_after. rewrite Hiu.
    unfold HAL_GetTick, DEBOUNCE_DURATION in *. lia.
Qed.

Lemma debounce_window_at_overflow_witness :
  let h := hal_at (2 ^ 32 - 100) GPIO_PIN_RESET in
  let g1 := fst (Button_IRQ_Handler h globals0 swa) in
  accepts h globals0 swa = true /\
  ignore_until g1 = 100 /\
  suppressed (hal_at (2 ^ 32 - 50) GPIO_PIN_SET) g1 = false.
Proof.
  split; [reflexivity |].
  destruct (debounce_window_at_overflow (hal_at (2 ^ 32 - 100) GPIO_PIN_RESET)
              (hal_at (2 ^ 32 - 50) GPIO_PIN_SET) globals0 swa eq_refl)
    as (Hiu & _ & Hn).
  - unfold HAL_in_range, is_uint. simpl. lia.
  - simpl. unfold DEBOUNCE_DURATION. lia.
  - split; [exact Hiu | apply Hn; simpl; lia].
Defined.

(** ** Measuring a press *)

(** X4. The duration of a press is measured from the tick recorded at the
    accepted press edge, by a 32-bit subtraction.  The press edge itself
    leaves both classifier flags and the last short-press start alone.  If
    the release is accepted [d] ticks after the press, the counter having
    possibly overflowed in between, the measured duration is [d] and the
    long-press flag is set exactly as [d] compares with
    [LONG_PRESS_DURATION]. *)
Theorem press_duration_survives_overflow
  (hp hr : HAL) (g : Globals) (b : Button) (d : Z) :
  accepts_press hp g b = true ->
  0 <= d < 2 ^ 32 ->
  HAL_GetTick hr = wrap32 (HAL_GetTick hp + d) ->
  let g1 := fst (Button_IRQ_Handler hp g b) in
  let b1 := snd (Button_IRQ_Handler hp g b) in
  let b2 := snd (Button_IRQ_Handler hr g1 b1) in
  press_start_time g1 = HAL_GetTick hp /\
  last_press_time g1 = last_press_time g /\
  _long_press_event b1 = _long_press_event b /\
  _double_press_event b1 = _double_press_event b /\
  press_duration hr g1 = d /\
  (accepts_release hr g1 b1 = true ->
   _long_press_event b2 =
   if d >=? LONG_PRESS_DURATION then 1 else _long_press_event b).
Proof.
  intros Hp Hd Ht g1 b1 b2. subst g1 b1 b2.
  rewrite (handler_press _ _ _ Hp). cbn [fst snd].
  set (g1 := set_press_start_time (after_debounce hp g) (HAL_GetTick hp)).
  set (b1 := set_has_changed (set_state b GPIO_PIN_RESET) 1).
  assert (Hpd : press_duration hr g1 = d).
  { unfold press_duration. subst g1. simpl. rewrite Ht.
    now apply wrap32_held. }
  repeat split; try reflexivity; try exact Hpd.
  intros Hr. destruct (release_flags hr g1 b1 Hr) as [Hl _].
  rewrite Hl, Hpd. reflexivity.
Qed.

Lemma press_duration_survives_overflow_witness :
  let hp := hal_at (2 ^ 32 - 100) GPIO_PIN_RESET in
  let hr := hal_at 900 GPIO_PIN_SET in
  let s1 := Button_IRQ_Handler hp globals0 swa in
  accepts_press hp globals0 swa = true /\
  press_duration hr (fst s1) = 1000 /\
  _long_press_event (snd (Button_IRQ_Handler hr (fst s1) (snd s1))) = 1.
Proof.
  split; [reflexivity |].
  destruct (press_duration_survives_overflow
              (hal_at (2 ^ 32 - 100) GPIO_PIN_RESET) (hal_at 900 GPIO_PIN_SET)
              globals0 swa 1000 eq_refl)
    as (_ & _ & _ & _ & Hd & Hl).
  - lia.
  - reflexivity.
  - split; [exact Hd | apply Hl; reflexivity].
Defined.

Lemma accepted_after_window (h h' : HAL) (g : Globals) (b b' : Button) :
  accepts h g b = true ->
  HAL_in_range h ->
  HAL_GetTick h + DEBOUNCE_DURATION < 2 ^ 32 ->
  accepts h' (fst (Button_IRQ_Handler h g b)) b' = true ->
  HAL_GetTick h + DEBOUNCE_DURATION <= HAL_GetTick h'.
Proof.
  intros Ha [H0 _] Hfit Ha'.
  unfold accepts, suppressed in Ha'. apply andb_true_iff in Ha' as [Hn _].
  apply negb_true_iff in Hn. rewrite Z.gtb_ltb in Hn. apply Z.ltb_ge in Hn.
  rewrite (accepted_deadline _ _ _ Ha), wrap32_small in Hn; [exact Hn |].
  unfold HAL_GetTick, DEBOUNCE_DURATION in *. lia.
Qed.

(** X5. No press shorter than the debounce window is ever measured: when a
    press edge is accepted at a tick that leaves room for the window in the
    32-bit range, any release the handler accepts next (for this or any
    other button) yields a press duration equal to the tick difference and
    at least [DEBOUNCE_DURATION]. *)
Theorem measured_press_at_least_debounce
  (hp hr : HAL) (g : Globals) (b b' : Button) :
  accepts_press hp g b = true ->
  HAL_in_range hp -> HAL_in_range hr ->
  HAL_GetTick hp + DEBOUNCE_DURATION < 2 ^ 32 ->
  let g1 := fst (Button_IRQ_Handler hp g b) in
  accepts_release hr g1 b' = true ->
  press_duration hr g1 = HAL_GetTick hr - HAL_GetTick hp /\
  DEBOUNCE_DURATION <= press_duration hr g1.
Proof.
  intros Hp Hrp Hrr Hfit g1 Hr.
  assert (Ha : accepts hp g b = true)
    by (unfold accepts_press in Hp; now apply andb_true_iff in Hp as [Hp _]).
  assert (Ha' : accepts hr g1 b' = true)
    by (unfold accepts_release in Hr; now apply andb_true_iff in Hr as [Hr _]).
  pose proof (accepted_after_window hp hr g b b' Ha Hrp Hfit Ha') as Hsp.
  assert (Hpd : press_duration hr g1 = HAL_GetTick hr - HAL_GetTick hp).
  { unfold press_duration. subst g1. rewrite (handler_press _ _ _ Hp). simpl.
    apply wrap32_small. destruct Hrp, Hrr.
    unfold HAL_GetTick, DEBOUNCE_DURATION in *. lia. }
  split; [exact Hpd | rewrite Hpd; lia].
Qed.

Lemma measured_press_at_least_debounce_witness :
  let hp := hal_at 1000 GPIO_PIN_RESET in
  let hr := hal_at 1250 GPIO_PIN_SET in
  let s1 := Button_IRQ_Handler hp globals0 swa in
  accepts_press hp globals0 swa = true /\
  accepts_release hr (fst s1) (snd s1) = true /\
  press_duration hr (fst s1) = 1250 - 1000 /\
  DEBOUNCE_DURATION <= press_duration hr (fst s1).
Proof.
  split; [reflexivity | split; [reflexivity |]].
  apply (measured_press_at_least_debounce
           (hal_at 1000 GPIO_PIN_RESET) (hal_at 1250 GPIO_PIN_SET)
           globals0 swa
           (snd (Button_IRQ_Handler (hal_at 1000 GPIO_PIN_RESET) globals0 swa))
           eq_refl).
  - unfold HAL_in_range, is_uint. simpl. lia.
  - unfold HAL_in_range, is_uint. simpl. lia.
  - simpl. unfold DEBOUNCE_DURATION. lia.
  - reflexivity.
Defined.

(** X6. A press released after [DOUBLE_PRESS_WINDOW] or more but less than
    [LONG_PRESS_DURATION] is no gesture at all: the accepted release leaves
    both classifier flags, the press start and the last short-press start
    as they were. *)
Theorem medium_press_is_silent (h : HAL) (g : Globals) (b : Button) :
  accepts_release h g b = true ->
  DOUBLE_PRESS_WINDOW <= press_duration h g < LONG_PRESS_DURATION ->
  let g' := fst (Button_IRQ_Handler h g b) in
  let b' := snd (Button_IRQ_Handler h g b) in
  _long_press_event b' = _long_press_event b /\
  _double_press_event b' = _double_press_event b /\
  press_start_time g' = press_start_time g /\
  last_press_time g' = last_press_time g.
Proof.
  intros Hr [Hlo Hhi] g' b'.
  destruct (release_flags h g b Hr) as [Hl Hd].
  destruct (release_times h g b Hr) as [Hs Ht].
  fold b' in Hl, Hd. fold g' in Hs, Ht. rewrite Hl, Hd, Hs, Ht.
  rewrite Z.geb_leb.
  replace (LONG_PRESS_DURATION <=? press_duration h g) with false
    by (symmetry; now apply Z.leb_gt).
  replace (press_duration h g <? DOUBLE_PRESS_WINDOW) with false
    by (symmetry; now apply Z.ltb_ge).
  repeat split.
Qed.

Lemma medium_press_is_silent_witness :
  let h := hal_at 1700 GPIO_PIN_SET in
  let g := mkGlobals 0 1 0 1 1200 1000 0 in
  let b := set_state swa GPIO_PIN_RESET in
  accepts_release h g b = true /\
  _long_press_event (snd (Button_IRQ_Handler h g b)) = 0 /\
  _double_press_event (snd (Button_IRQ_Handler h g b)) = 0.
Proof.
  split; [reflexivity |].
  destruct (medium_press_is_silent (hal_at 1700 GPIO_PIN_SET)
              (mkGlobals 0 1 0 1 1200 1000 0)
              (set_state swa GPIO_PIN_RESET) eq_refl)
    as (Hl & Hd & _).
  - vm_compute. split; [discriminate | reflexivity].
  - exact (conj Hl Hd).
Defined.

(** X7. One call reports at most one gesture: whichever entry point is
    called, if the long-press and double-press flags are both clear before
    the call they are not both set after it. *)
Theorem one_call_one_gesture (op : api) (h : HAL) (g : Globals) (b : Button) :
  _long_press_event b = 0 ->
  _double_press_event b = 0 ->
  let b' := snd (fst (call op h g b)) in
  _long_press_event b' = 0 \/ _double_press_event b' = 0.
Proof.
  intros Hl Hd b'.
  assert (Hh : _long_press_event (snd (Button_IRQ_Handler h g b)) = 0 \/
               _double_press_event (snd (Button_IRQ_Handler h g b)) = 0).
  { destruct (accepts_release h g b) eqn:Hr.
    - destruct (release_flags h g b Hr) as [Hfl Hfd]. simpl in Hfl, Hfd.
      rewrite Hfl, Hfd, Hl, Hd, Z.geb_leb.
      destruct (Z.leb_spec LONG_PRESS_DURATION (press_duration h g)) as [H | H];
        [right | now left].
      replace (press_duration h g <? DOUBLE_PRESS_WINDOW) with false;
        [reflexivity |].
      symmetry. apply Z.ltb_ge.
      unfold LONG_PRESS_DURATION, DOUBLE_PRESS_WINDOW in *. lia.
    - destruct (press_flags h g b Hr) as [Hfl _]. simpl in Hfl.
      left. now rewrite Hfl. }
  destruct (updates op) eqn:Hu.
  - pose proof (call_flags op h g b Hu) as (Cl & Cd & _). fold b' in Cl, Cd.
    simpl in Cl, Cd.
    destruct Cl as [Cl | Cl]; [| now left].
    destruct Cd as [Cd | Cd]; [| now right].
    rewrite Cl, Cd. exact Hh.
  - destruct op; try discriminate. now left.
Qed.

Lemma one_call_one_gesture_witness :
  let h := hal_at 1000 GPIO_PIN_SET in
  let b := set_state swa GPIO_PIN_RESET in
  let b' := snd (fst (call API_IRQ_Handler h globals0 b)) in
  _long_press_event b' = 0 \/ _double_press_event b' = 0.
Proof.
  exact (one_call_one_gesture API_IRQ_Handler (hal_at 1000 GPIO_PIN_SET)
           globals0 (set_state swa GPIO_PIN_RESET) eq_refl eq_refl).
Defined.

(** ** Flags between the accessors *)

Lemma call_leaves_flag (f : flag) (op : api) (h : HAL) (g : Globals)
      (b : Button) :
  consumes f op = false ->
  flag_of f (snd (fst (call op h g b))) =
  flag_of f (snd (Button_IRQ_Handler h g b)).
Proof.
  destruct op, f; simpl; try discriminate; intros _;
    rewrite ?Button_Pressed_unfold, ?Button_Long_Pressed_unfold,
      ?Button_Double_Pressed_unfold; reflexivity.
Qed.

(** X8. A long press or a double press that has been flagged is not lost:
    whatever calls of the handler and of the other accessors follow, and
    whatever they meet, the next call of the accessor of that flag returns 1
    and clears it. *)
Theorem pending_gesture_is_reported
  (f : flag) (cs : list (api * HAL)) (h : HAL) (g : Globals) (b : Button) :
  f <> Changed ->
  flag_of f b <> 0 ->
  forallb (fun e => negb (consumes f (fst e))) cs = true ->
  let g1 := fst (fst (run cs g b)) in
  let b1 := snd (fst (run cs g b)) in
  snd (accessor f h g1 b1) = 1 /\
  flag_of f (snd (fst (accessor f h g1 b1))) = 0.
Proof.
  intros Hf Hset Hcs.
  assert (Hkeep : flag_of f (snd (fst (run cs g b))) <> 0).
  { revert g b Hset Hcs.
    induction cs as [| [op h0] cs IH]; intros g b Hset Hcs; simpl;
      [exact Hset |].
    simpl in Hcs. apply andb_true_iff in Hcs as [Hop Hcs].
    apply negb_true_iff in Hop.
    pose proof (call_leaves_flag f op h0 g b Hop) as Hc.
    rewrite handler_flag in Hc.
    destruct (call op h0 g b) as [[g1 b1] r]. simpl in Hc.
    assert (Hset1 : flag_of f b1 <> 0)
      by (rewrite Hc; destruct (raises f h0 g b); [discriminate | exact Hset]).
    specialize (IH g1 b1 Hset1 Hcs).
    destruct (run cs g1 b1) as [[g2 b2] log]. exact IH. }
  intros g1 b1. fold b1 in Hkeep.
  pose proof (accessor_consumes f h g1 b1) as (Hclr & _ & _ & Hrep).
  split; [apply Hrep; [exact Hf |] | exact Hclr].
  rewrite handler_flag. destruct (raises f h g1 b1); [discriminate | exact Hkeep].
Qed.

Lemma pending_gesture_is_reported_witness :
  let b := set_long_press_event swa 1 in
  let cs := [(API_IRQ_Handler, hal_at 3000 GPIO_PIN_RESET);
             (API_Pressed, hal_at 3050 GPIO_PIN_RESET);
             (API_Double_Pressed, hal_at 3100 GPIO_PIN_RESET);
             (API_IRQ_Handler, hal_at 3300 GPIO_PIN_SET)] in
  let s := run cs globals0 b in
  snd (accessor LongPress (hal_at 3400 GPIO_PIN_SET) (fst (fst s)) (snd (fst s)))
  = 1.
Proof.
  apply (pending_gesture_is_reported LongPress
           [(API_IRQ_Handler, hal_at 3000 GPIO_PIN_RESET);
            (API_Pressed, hal_at 3050 GPIO_PIN_RESET);
            (API_Double_Pressed, hal_at 3100 GPIO_PIN_RESET);
            (API_IRQ_Handler, hal_at 3300 GPIO_PIN_SET)]
           (hal_at 3400 GPIO_PIN_SET) globals0 (set_long_press_event swa 1)).
  - discriminate.
  - simpl. discriminate.
  - reflexivity.
Defined.

(** X9. The accessors do not interfere: the accessor of one flag leaves the
    other two flags, the settled state and the three timestamps of the
    handler exactly as the update it runs leaves them. *)
Theorem accessors_do_not_interfere
  (f f' : flag) (h : HAL) (g : Globals) (b : Button) :
  f <> f' ->
  let g1 := fst (Button_IRQ_Handler h g b) in
  let b1 := snd (Button_IRQ_Handler h g b) in
  let g2 := fst (fst (accessor f h g b)) in
  let b2 := snd (fst (accessor f h g b)) in
  flag_of f' b2 = flag_of f' b1 /\
  _state b2 = _state b1 /\
  ignore_until g2 = ignore_until g1 /\
  press_start_time g2 = press_start_time g1 /\
  last_press_time g2 = last_press_time g1.
Proof.
  intros Hne g1 b1 g2 b2. subst g1 b1 g2 b2.
  destruct f, f'; try contradiction; simpl;
    rewrite ?Button_Pressed_unfold, ?Button_Long_Pressed_unfold,
      ?Button_Double_Pressed_unfold; simpl; repeat split.
Qed.

Lemma accessors_do_not_interfere_witness :
  let h := hal_at 1000 GPIO_PIN_SET in
  let b := set_state swa GPIO_PIN_RESET in
  flag_of LongPress (snd (fst (accessor Changed h globals0 b))) =
  flag_of LongPress (snd (Button_IRQ_Handler h globals0 b)).
Proof.
  apply (accessors_do_not_interfere Changed LongPress
           (hal_at 1000 GPIO_PIN_SET) globals0 (set_state swa GPIO_PIN_RESET)).
  discriminate.
Defined.

(** ** After initialisation *)

(** X10. The first poll after [Button_Init]: [Button_Pressed] returns 1
    exactly when the call is outside the suppression window (which
    [Button_Init] does not reset) and the pin reads the pressed level;
    [Button_Long_Pressed] and [Button_Double_Pressed] return 0 whatever the
    tick, the pin and the variables are. *)
Theorem first_poll_after_init
  (h : HAL) (g : Globals) (b : Button) (port pin : Z) :
  let b0 := Button_Init b port pin in
  (snd (Button_Pressed h g b0) = 1 <->
   suppressed h g = false /\
   HAL_GPIO_ReadPin h port pin = GPIO_PIN_RESET) /\
  snd (Button_Long_Pressed h g b0) = 0 /\
  snd (Button_Double_Pressed h g b0) = 0.
Proof.
  intros b0. subst b0.
  unfold Button_Pressed, Button_Long_Pressed, Button_Double_Pressed,
    Button_IRQ_Handler, Button_Has_Changed, Button_Read, Button_Init,
    suppressed, HAL_GPIO_ReadPin.
  simpl.
  destruct (ignore_until g >? HAL_GetTick h);
    destruct (IDR h port pin) eqn:E; simpl; rewrite ?E; simpl;
    repeat split; intros; try reflexivity; try discriminate;
    intuition discriminate.
Qed.

(** X11. While no short press has been recorded ([last_press_time] still
    holds its initial 0), a single short press that starts before tick
    [DOUBLE_PRESS_WINDOW] raises the double-press flag at its release: the
    initial 0 is taken for the start of an earlier press. *)
Theorem lone_press_taken_for_double
  (hp hr : HAL) (g : Globals) (b : Button) :
  last_press_time g = 0 ->
  _state b = GPIO_PIN_SET ->
  raw_level hp b = GPIO_PIN_RESET ->
  raw_level hr b = GPIO_PIN_SET ->
  0 <= HAL_GetTick hp < DOUBLE_PRESS_WINDOW ->
  ignore_until g <= HAL_GetTick hp ->
  HAL_GetTick hp + DEBOUNCE_DURATION <= HAL_GetTick hr ->
  HAL_GetTick hr - HAL_GetTick hp < DOUBLE_PRESS_WINDOW ->
  _double_press_event (snd (irq_trace [hp; hr] g b)) = 1.
Proof.
  intros Hlast Hst Hlp Hlr [H0 Hearly] Hiu Hdeb Hshort.
  assert (Hmax : HAL_GetTick hr < 2 ^ 32)
    by (unfold DOUBLE_PRESS_WINDOW in *; lia).
  pose proof (short_press_cycle hp hr g b Hst Hlp Hlr H0 Hiu Hdeb Hmax Hshort)
    as C.
  simpl irq_trace.
  destruct (Button_IRQ_Handler hp g b) as [g1 b1].
  destruct (Button_IRQ_Handler hr g1 b1) as [g2 b2].
  destruct C as (_ & _ & _ & _ & _ & _ & _ & _ & _ & _ & Hd).
  simpl. rewrite Hd, Hlast, Z.sub_0_r, wrap32_small
    by (unfold DOUBLE_PRESS_WINDOW in *; lia).
  replace (HAL_GetTick hp <? DOUBLE_PRESS_WINDOW) with true;
    [reflexivity | symmetry; now apply Z.ltb_lt].
Qed.

Lemma lone_press_taken_for_double_witness :
  let hp := hal_at 100 GPIO_PIN_RESET in
  let hr := hal_at 350 GPIO_PIN_SET in
  _double_press_event (snd (irq_trace [hp; hr] globals0 swa)) = 1.
Proof.
  apply (lone_press_taken_for_double (hal_at 100 GPIO_PIN_RESET)
           (hal_at 350 GPIO_PIN_SET) globals0 swa);
    try reflexivity; simpl; unfold DOUBLE_PRESS_WINDOW, DEBOUNCE_DURATION; lia.
Defined.

(** ** The debug counter *)

Lemma on_release_debug_count (h : HAL) (g : Globals) (b : Button) :
  debug_count (fst (on_release h g b)) = debug_count g.
Proof.
  unfold on_release.
  destruct (_ >=? _); destruct (_ <? _); simpl;
    try destruct (_ <? _); reflexivity.
Qed.

Lemma handler_debug_count (h : HAL) (g : Globals) (b : Button) :
  debug_count (fst (Button_IRQ_Handler h g b)) =
  if accepts h g b then wrap16 (debug_count g + 1) else debug_count g.
Proof.
  destruct (accepts h g b) eqn:Ha.
  - destruct (accepts_cases _ _ _ Ha) as [Hp | Hr].
    + now rewrite (handler_press _ _ _ Hp).
    + now rewrite (handler_release _ _ _ Hr), on_release_debug_count.
  - now rewrite (handler_not_accepted _ _ _ Ha).
Qed.

(** X12. [debug_count] counts the accepted transitions modulo 2^16: after
    any run of handler invocations it holds its former value plus the number
    of invocations that accepted a transition, reduced to 16 bits. *)
Theorem debug_count_counts_accepted (hs : list HAL) :
  forall (g : Globals) (b : Button),
    is_uint 16 (debug_count g) ->
    debug_count (fst (irq_trace hs g b)) =
    wrap16 (debug_count g + accepted_count hs g b).
Proof.
  induction hs as [| h hs IH]; intros g b Hr; simpl.
  - rewrite Z.add_0_r. unfold wrap16. symmetry. now apply Z.mod_small.
  - pose proof (handler_debug_count h g b) as Hd.
    destruct (Button_IRQ_Handler h g b) as [g1 b1]. simpl in Hd.
    assert (Hr1 : is_uint 16 (debug_count g1)).
    { rewrite Hd. destruct (accepts h g b); [apply wrap16_range | exact Hr]. }
    rewrite (IH g1 b1 Hr1), Hd.
    destruct (accepts h g b).
    + unfold wrap16. rewrite Zplus_mod_idemp_l. f_equal. lia.
    + f_equal.
Qed.

Lemma debug_count_counts_accepted_witness :
  debug_count (fst (irq_trace presses_300_apart globals0 swa)) =
  wrap16 (0 + accepted_count presses_300_apart globals0 swa).
Proof.
  apply (debug_count_counts_accepted presses_300_apart globals0 swa).
  unfold is_uint. simpl. lia.
Defined.

(** ** What no call changes *)

Lemma call_wiring (op : api) (h : HAL) (g : Globals) (b : Button) :
  updates op = true ->
  let b' := snd (fst (call op h g b)) in
  GPIO_Port b' = GPIO_Port b /\ _pin b' = _pin b /\ _delay b' = _delay b /\
  _press_start_time b' = _press_start_time b.
Proof.
  intros Hu. pose proof (handler_wiring h g b) as Hw. simpl in Hw.
  destruct op; try discriminate; simpl;
    rewrite ?Button_Pressed_unfold, ?Button_Long_Pressed_unfold,
      ?Button_Double_Pressed_unfold; simpl; exact Hw.
Qed.

(** X13. Apart from [Button_Init], no entry point ever writes the port, the
    pin, [_delay] or the [_press_start_time] member of the structure: after
    any sequence of handler and accessor calls they hold what they held
    before.  The press start used for classification is the variable of the
    handler, not the member of the button. *)
Theorem wiring_is_never_written (cs : list (api * HAL)) :
  forall (g : Globals) (b : Button),
    forallb (fun e => updates (fst e)) cs = true ->
    let b' := snd (fst (run cs g b)) in
    GPIO_Port b' = GPIO_Port b /\ _pin b' = _pin b /\ _delay b' = _delay b /\
    _press_start_time b' = _press_start_time b.
Proof.
  induction cs as [| [op h] cs IH]; intros g b Hcs; simpl.
  - repeat split.
  - simpl in Hcs. apply andb_true_iff in Hcs as [Hop Hcs].
    pose proof (call_wiring op h g b Hop) as Hw. simpl in Hw.
    destruct (call op h g b) as [[g1 b1] r]. simpl in Hw.
    specialize (IH g1 b1 Hcs). simpl in IH.
    destruct (run cs g1 b1) as [[g2 b2] log]. simpl in *.
    destruct Hw as (W1 & W2 & W3 & W4). destruct IH as (I1 & I2 & I3 & I4).
    repeat split; congruence.
Qed.

Lemma wiring_is_never_written_witness :
  let cs := [(API_IRQ_Handler, hal_at 1000 GPIO_PIN_RESET);
             (API_Pressed, hal_at 1100 GPIO_PIN_RESET);
             (API_Long_Pressed, hal_at 2500 GPIO_PIN_SET)] in
  _press_start_time (snd (fst (run cs globals0 swa))) = _press_start_time swa.
Proof.
  apply (wiring_is_never_written
           [(API_IRQ_Handler, hal_at 1000 GPIO_PIN_RESET);
            (API_Pressed, hal_at 1100 GPIO_PIN_RESET);
            (API_Long_Pressed, hal_at 2500 GPIO_PIN_SET)] globals0 swa).
  reflexivity.
Defined.

(** ** Ranges along a run *)

Lemma call_returns_bit (op : api) (h : HAL) (g : Globals) (b : Button) :
  snd (call op h g b) = 0 \/ snd (call op h g b) = 1.
Proof.
  destruct op; simpl; auto.
  - destruct (accessor_consumes Changed h g b) as (_ & [H | H] & _); auto.
  - destruct (accessor_consumes LongPress h g b) as (_ & [H | H] & _); auto.
  - destruct (accessor_consumes DoublePress h g b) as (_ & [H | H] & _); auto.
Qed.

Lemma call_ok_in_range (op : api) (h : HAL) (g : Globals) (b : Button) :
  call_ok (op, h) -> Globals_in_range g -> Button_in_range b ->
  Globals_in_range (fst (fst (call op h g b))) /\
  Button_in_range (snd (fst (call op h g b))).
Proof.
  intros [Hh Hop] Hg Hb. simpl in Hh, Hop.
  destruct (updates op) eqn:Hu.
  - destruct (call_in_range op h g b Hu Hh Hg Hb) as (H1 & H2 & _).
    now split.
  - destruct op; try discriminate. simpl. split; [exact Hg |].
    range_split.
Qed.

(** X14. Every value stays in the range of its C type: starting from
    variables and a button within range, after any sequence of calls of the
    five entry points (with 32-bit ticks and a 16-bit pin mask for
    [Button_Init]) the variables and the button are within range again, and
    every value returned is 0 or 1. *)
Theorem run_keeps_ranges (cs : list (api * HAL)) :
  forall (g : Globals) (b : Button),
    Forall call_ok cs ->
    Globals_in_range g ->
    Button_in_range b ->
    Globals_in_range (fst (fst (run cs g b))) /\
    Button_in_range (snd (fst (run cs g b))) /\
    Forall (fun e => snd e = 0 \/ snd e = 1) (snd (run cs g b)).
Proof.
  induction cs as [| [op h] cs IH]; intros g b Hcs Hg Hb; simpl.
  - split; [exact Hg | split; [exact Hb | constructor]].
  - inversion Hcs as [| e l Hok Hrest]; subst.
    destruct (call_ok_in_range op h g b Hok Hg Hb) as [Hg1 Hb1].
    pose proof (call_returns_bit op h g b) as Hbit.
    destruct (call op h g b) as [[g1 b1] r]. simpl in Hg1, Hb1, Hbit.
    destruct (IH g1 b1 Hrest Hg1 Hb1) as (Hg2 & Hb2 & Hlog).
    destruct (run cs g1 b1) as [[g2 b2] log]. simpl in *.
    split; [exact Hg2 | split; [exact Hb2 | constructor; assumption]].
Qed.

Lemma run_keeps_ranges_witness :
  let cs := [(API_Init 0x48000000 1, hal_at 0 GPIO_PIN_SET);
             (API_IRQ_Handler, hal_at (2 ^ 32 - 1) GPIO_PIN_RESET);
             (API_Pressed, hal_at 150 GPIO_PIN_RESET);
             (API_Long_Pressed, hal_at 3000 GPIO_PIN_SET)] in
  let g := mkGlobals 0 (2 ^ 16 - 1) 0 0 0 0 0 in
  Forall call_ok cs /\
  Globals_in_range (fst (fst (run cs g swa))) /\
  Button_in_range (snd (fst (run cs g swa))) /\
  Forall (fun e => snd e = 0 \/ snd e = 1) (snd (run cs g swa)).
Proof.
  assert (Hcs : Forall call_ok
                  [(API_Init 0x48000000 1, hal_at 0 GPIO_PIN_SET);
                   (API_IRQ_Handler, hal_at (2 ^ 32 - 1) GPIO_PIN_RESET);
                   (API_Pressed, hal_at 150 GPIO_PIN_RESET);
                   (API_Long_Pressed, hal_at 3000 GPIO_PIN_SET)]).
  { repeat constructor; unfold HAL_in_range, is_uint; simpl; lia. }
  split; [exact Hcs |].
  apply (run_keeps_ranges _ (mkGlobals 0 (2 ^ 16 - 1) 0 0 0 0 0) swa Hcs).
  - unfold Globals_in_range, is_uint. simpl. lia.
  - unfold Button_in_range, is_uint. simpl. lia.
Defined.

(** ** How tight a double press has to be *)

Lemma accepts_from_pressed (h : HAL) (g : Globals) (b : Button) :
  accepts h g b = true -> _state b = GPIO_PIN_RESET ->
  accepts_release h g b = true.
Proof.
  intros Ha Hst. unfold accepts_release. rewrite Ha. simpl.
  unfold accepts in Ha. apply andb_true_iff in Ha as [_ Ha].
  rewrite Hst in Ha. now destruct (raw_level h b).
Qed.

Lemma accepts_from_released (h : HAL) (g : Globals) (b : Button) :
  accepts h g b = true -> _state b = GPIO_PIN_SET ->
  accepts_press h g b = true.
Proof.
  intros Ha Hst. unfold accepts_press. rewrite Ha. simpl.
  unfold accepts in Ha. apply andb_true_iff in Ha as [_ Ha].
  rewrite Hst in Ha. now destruct (raw_level h b).
Qed.

Lemma accepts_release_accepts (h : HAL) (g : Globals) (b : Button) :
  accepts_release h g b = true -> accepts h g b = true.
Proof.
  unfold accepts_release. intros H. now apply andb_true_iff in H as [H _].
Qed.

Lemma accepts_press_accepts (h : HAL) (g : Globals) (b : Button) :
  accepts_press h g b = true -> accepts h g b = true.
Proof.
  unfold accepts_press. intros H. now apply andb_true_iff in H as [H _].
Qed.

(** X15. With the debounce window in the way, a double press has to be
    tight.  Take four transitions of one button accepted in a row, the first
    a press of less than [DOUBLE_PRESS_WINDOW], all ticks leaving room for
    the window in the 32-bit range.  If the fourth (the second release)
    raises the double-press flag, then the first press and the pause after
    it each lasted at least [DEBOUNCE_DURATION] and less than
    [DOUBLE_PRESS_WINDOW - DEBOUNCE_DURATION] ticks, and the second press at
    least [DEBOUNCE_DURATION] and less than [DOUBLE_PRESS_WINDOW]. *)
Theorem double_press_needs_tight_timing
  (h1 h2 h3 h4 : HAL) (g : Globals) (b : Button) :
  HAL_in_range h1 -> HAL_in_range h2 -> HAL_in_range h3 -> HAL_in_range h4 ->
  HAL_GetTick h1 + DEBOUNCE_DURATION < 2 ^ 32 ->
  HAL_GetTick h2 + DEBOUNCE_DURATION < 2 ^ 32 ->
  HAL_GetTick h3 + DEBOUNCE_DURATION < 2 ^ 32 ->
  let s1 := Button_IRQ_Handler h1 g b in
  let s2 := Button_IRQ_Handler h2 (fst s1) (snd s1) in
  let s3 := Button_IRQ_Handler h3 (fst s2) (snd s2) in
  accepts_press h1 g b = true ->
  accepts h2 (fst s1) (snd s1) = true ->
  press_duration h2 (fst s1) < DOUBLE_PRESS_WINDOW ->
  accepts h3 (fst s2) (snd s2) = true ->
  raises DoublePress h4 (fst s3) (snd s3) = true ->
  DEBOUNCE_DURATION <= HAL_GetTick h2 - HAL_GetTick h1
    < DOUBLE_PRESS_WINDOW - DEBOUNCE_DURATION /\
  DEBOUNCE_DURATION <= HAL_GetTick h3 - HAL_GetTick h2
    < DOUBLE_PRESS_WINDOW - DEBOUNCE_DURATION /\
  DEBOUNCE_DURATION <= HAL_GetTick h4 - HAL_GetTick h3 < DOUBLE_PRESS_WINDOW.
Proof.
  intros R1 R2 R3 R4 F1 F2 F3 s1 s2 s3 Hp1 Ha2 Hshort Ha3 Hraise.
  (* first press *)
  pose proof (accepts_press_accepts _ _ _ Hp1) as Ha1.
  pose proof (accepted_after_window h1 h2 g b (snd s1) Ha1 R1 F1 Ha2) as Sp12.
  assert (Hst1 : _state (snd s1) = GPIO_PIN_RESET)
    by (subst s1; now rewrite (handler_press _ _ _ Hp1)).
  assert (Hps1 : press_start_time (fst s1) = HAL_GetTick h1)
    by (subst s1; now rewrite (handler_press _ _ _ Hp1)).
  (* first release *)
  pose proof (accepts_from_pressed _ _ _ Ha2 Hst1) as Hr2.
  pose proof (accepted_after_window h2 h3 _ _ (snd s2) Ha2 R2 F2 Ha3) as Sp23.
  destruct (release_times h2 (fst s1) (snd s1) Hr2) as [_ Hlast2].
  fold s2 in Hlast2.
  replace (press_duration h2 (fst s1) <? DOUBLE_PRESS_WINDOW) with true
    in Hlast2 by (symmetry; now apply Z.ltb_lt).
  rewrite Hps1 in Hlast2.
  assert (Hst2 : _state (snd s2) = GPIO_PIN_SET).
  { subst s2. rewrite handler_settled_state, Ha2.
    unfold accepts_release in Hr2. apply andb_true_iff in Hr2 as [_ Hr2].
    now apply PinState_eqb_eq. }
  (* second press *)
  pose proof (accepts_from_released _ _ _ Ha3 Hst2) as Hp3.
  assert (Hps3 : press_start_time (fst s3) = HAL_GetTick h3)
    by (subst s3; now rewrite (handler_press _ _ _ Hp3)).
  assert (Hlast3 : last_press_time (fst s3) = HAL_GetTick h1)
    by (subst s3; rewrite (handler_press _ _ _ Hp3); exact Hlast2).
  (* second release *)
  simpl in Hraise. apply andb_true_iff in Hraise as [Hraise Hpair].
  apply andb_true_iff in Hraise as [Hr4 Hd4].
  apply Z.ltb_lt in Hpair. apply Z.ltb_lt in Hd4.
  pose proof (accepted_after_window h3 h4 _ _ (snd s3) Ha3 R3 F3
                (accepts_release_accepts _ _ _ Hr4)) as Sp34.
  destruct R1 as [R1a R1b], R2 as [R2a R2b], R3 as [R3a R3b], R4 as [R4a R4b].
  unfold HAL_GetTick in *.
  unfold time_since_last_press in Hpair. rewrite Hps3, Hlast3 in Hpair.
  rewrite wrap32_small in Hpair by (unfold DEBOUNCE_DURATION in *; lia).
  unfold press_duration in Hd4. rewrite Hps3 in Hd4. unfold HAL_GetTick in Hd4.
  rewrite wrap32_small in Hd4 by (unfold DEBOUNCE_DURATION in *; lia).
  unfold DEBOUNCE_DURATION, DOUBLE_PRESS_WINDOW in *. lia.
Qed.

Lemma double_press_needs_tight_timing_witness :
  let h1 := hal_at 1000 GPIO_PIN_RESET in
  let h2 := hal_at 1200 GPIO_PIN_SET in
  let h3 := hal_at 1400 GPIO_PIN_RESET in
  let h4 := hal_at 1600 GPIO_PIN_SET in
  let s3 := irq_trace [h1; h2; h3] globals0 swa in
  raises DoublePress h4 (fst s3) (snd s3) = true /\
  200 <= 1200 - 1000 < 500 - 200 /\
  200 <= 1400 - 1200 < 500 - 200 /\
  200 <= 1600 - 1400 < 500.
Proof.
  split; [vm_compute; reflexivity |].
  apply (double_press_needs_tight_timing
           (hal_at 1000 GPIO_PIN_RESET) (hal_at 1200 GPIO_PIN_SET)
           (hal_at 1400 GPIO_PIN_RESET) (hal_at 1600 GPIO_PIN_SET)
           globals0 swa);
    try (unfold HAL_in_range, is_uint; simpl; lia);
    try (simpl; unfold DEBOUNCE_DURATION; lia);
    try (vm_compute; reflexivity).
Defined.
